(** * Tool router: a shallow embedding of [backend/open_webui/routers/tools.py]

    The router is HTTP glue: every handler reads the request, consults the
    persistence table [Tools], the access-control helpers, the plugin loader
    and (for the catalog listing) the remote tool-server registry and the
    authorization broker, and either returns a value or raises an
    [HTTPException].  The handlers are embedded as computations in a small
    state-and-exception monad over the application state; the collaborators
    the file only imports are interfaces (type classes). *)

From Stdlib Require Import ZArith String Ascii List.
From stdpp Require Import gmap strings list fin_maps pretty.

Open Scope string_scope.
Open Scope list_scope.
Open Scope Z_scope.

(** ** Python text

    A Python [str] is a sequence of code points.  A Rocq [string] stands for
    the text whose code points are its characters, which covers every code
    point below 256.  On that range the two built-ins the router calls are
    given by the tables below ([str.isidentifier] is XID_Start followed by
    XID_Continue characters, with the underscore allowed in front). *)

Module PyStr.

Definition between (lo hi n : N) : bool := ((lo <=? n) && (n <=? hi))%N.

Definition is_xid_start (c : ascii) : bool :=
  let n := N_of_ascii c in
  between 65 90 n || (n =? 95)%N || between 97 122 n
  || (n =? 170)%N || (n =? 181)%N || (n =? 186)%N
  || between 192 214 n || between 216 246 n || between 248 255 n.

Definition is_xid_continue (c : ascii) : bool :=
  let n := N_of_ascii c in
  is_xid_start c || between 48 57 n || (n =? 183)%N.

Fixpoint all_chars (p : ascii -> bool) (s : string) : bool :=
  match s with
  | EmptyString => true
  | String c rest => p c && all_chars p rest
  end.

(** [s.isidentifier()] *)
Definition isidentifier (s : string) : bool :=
  match s with
  | EmptyString => false
  | String c rest => is_xid_start c && all_chars is_xid_continue rest
  end.

Definition lower_char (c : ascii) : ascii :=
  let n := N_of_ascii c in
  if between 65 90 n || between 192 214 n || between 216 222 n
  then ascii_of_N (n + 32)
  else c.

(** [s.lower()] *)
Fixpoint lower (s : string) : string :=
  match s with
  | EmptyString => EmptyString
  | String c rest => String (lower_char c) (lower rest)
  end.

(** Truth value of an optional text: [None] and [""] are falsy. *)
Definition truthy (o : option string) : bool :=
  match o with
  | Some s => negb (String.eqb s "")
  | None => false
  end.

(** [a or b] on optional texts. *)
Definition py_or (a b : option string) : option string :=
  if truthy a then a else b.

End PyStr.

(** ** JSON-like values, dicts *)

Set Warnings "-register-all".

Inductive json : Type :=
| JNone
| JBool (b : bool)
| JInt (n : Z)
| JStr (s : string)
| JList (l : list json)
| JDict (d : list (string * json)).

(** A Python [dict] with text keys, in insertion order. *)
Definition dict : Type := list (string * json).

Definition is_none (v : json) : bool :=
  match v with
  | JNone => true
  | _ => false
  end.

Definition json_of_opt_str (o : option string) : json :=
  match o with
  | Some s => JStr s
  | None => JNone
  end.

(** [d[k] = v]: replaces the value in place when the key is there, appends
    the pair otherwise. *)
Fixpoint dict_set (k : string) (v : json) (d : dict) : dict :=
  match d with
  | [] => [(k, v)]
  | (k', v') :: rest =>
      if String.eqb k' k then (k', v) :: rest else (k', v') :: dict_set k v rest
  end.

(** [d.get(k)] *)
Fixpoint dict_get (k : string) (d : dict) : option json :=
  match d with
  | [] => None
  | (k', v) :: rest => if String.eqb k' k then Some v else dict_get k rest
  end.

(** [{k: v for k, v in form_data.items() if v is not None}] *)
Definition drop_none (form_data : dict) : dict :=
  List.filter (fun kv => negb (is_none (snd kv))) form_data.

(** ** Exceptions and results *)

Inductive exn : Type :=
| HTTPException (status_code : Z) (detail : string)
| Exception (msg : string).

Inductive result (A : Type) : Type :=
| Ok (a : A)
| Raise (e : exn).

Arguments Ok {A} a.
Arguments Raise {A} e.

Definition HTTP_400_BAD_REQUEST : Z := 400.
Definition HTTP_401_UNAUTHORIZED : Z := 401.

(** [open_webui.constants.ERROR_MESSAGES], as far as the router uses it. *)
Record ErrorMessages : Type := {
  NOT_FOUND : string;
  UNAUTHORIZED : string;
  ID_TAKEN : string;
  ACCESS_PROHIBITED : string;
  DEFAULT : string -> string
}.

(** ** Data model

    One module per class, so that fields keep the names they have in the
    source. *)

(** [user], as delivered by [get_verified_user]. *)
Module UserModel.
Record t : Type := { id : string; role : string }.
End UserModel.

(** [ToolForm]: the body of create and update requests. *)
Module ToolForm.
Record t : Type := {
  id : string;
  name : string;
  content : string;
  meta : dict;
  access_control : option dict
}.
Definition with_id (v : string) (f : t) : t :=
  {| id := v; name := name f; content := content f; meta := meta f;
     access_control := access_control f |}.
Definition with_content (v : string) (f : t) : t :=
  {| id := id f; name := name f; content := v; meta := meta f;
     access_control := access_control f |}.
(** [form_data.meta.manifest = frontmatter] *)
Definition with_manifest (frontmatter : json) (f : t) : t :=
  {| id := id f; name := name f; content := content f;
     meta := dict_set "manifest" frontmatter (meta f);
     access_control := access_control f |}.
End ToolForm.

(** [ToolModel]: a persisted tool record. *)
Module ToolModel.
Record t : Type := {
  id : string;
  user_id : string;
  name : string;
  content : string;
  specs : list json;
  meta : dict;
  access_control : option dict;
  updated_at : Z;
  created_at : Z
}.
End ToolModel.

(** [ToolUserResponse]: the synthesized catalog entries. *)
Module ToolUserResponse.
Record t : Type := {
  id : string;
  user_id : string;
  name : string;
  meta : dict;
  access_control : option dict;
  updated_at : Z;
  created_at : Z
}.
End ToolUserResponse.

(** The list [tools] of the catalog listing holds the records returned by
    the table and the synthesized responses side by side; the listing reads
    [id], [user_id] and [access_control] off either kind. *)
Inductive entry : Type :=
| Stored (t : ToolModel.t)
| Synth (r : ToolUserResponse.t).

Definition entry_id (e : entry) : string :=
  match e with
  | Stored t => ToolModel.id t
  | Synth r => ToolUserResponse.id r
  end.

Definition entry_user_id (e : entry) : string :=
  match e with
  | Stored t => ToolModel.user_id t
  | Synth r => ToolUserResponse.user_id r
  end.

Definition entry_access_control (e : entry) : option dict :=
  match e with
  | Stored t => ToolModel.access_control t
  | Synth r => ToolUserResponse.access_control r
  end.

Definition entry_meta (e : entry) : dict :=
  match e with
  | Stored t => ToolModel.meta t
  | Synth r => ToolUserResponse.meta r
  end.

(** [{**form_data.model_dump(exclude={"id"}), "specs": specs}] *)
Module ToolUpdate.
Record t : Type := {
  name : string;
  content : string;
  meta : dict;
  access_control : option dict;
  specs : list json
}.
Definition of_form (f : ToolForm.t) (sp : list json) : t :=
  {| name := ToolForm.name f; content := ToolForm.content f;
     meta := ToolForm.meta f; access_control := ToolForm.access_control f;
     specs := sp |}.
End ToolUpdate.

(** An entry of [app.state.TOOL_SERVERS]: [server["idx"]] and the part of
    [server["openapi"]] the listing reads. *)
Module OpenAPIInfo.
Record t : Type := { title : option string; description : option string }.
Definition empty : t := {| title := None; description := None |}.
End OpenAPIInfo.

Module ToolServer.
Record t : Type := { idx : nat; info : option OpenAPIInfo.t }.
End ToolServer.

(** An entry of [config.TOOL_SERVER_CONNECTIONS]. *)
Module Connection.
Record config_t : Type := { access_control : option dict }.
Record t : Type := { config : option config_t }.
End Connection.

(** An entry of [app.state.ARCADE_TOOLS] (the broker's tool metadata). *)
Module OAuth2.
Record t : Type := { scopes : option (list string) }.
End OAuth2.

Module Authorization.
Record t : Type := {
  id : option string;
  provider_id : option string;
  provider_type : option string;
  oauth2 : option OAuth2.t
}.
End Authorization.

Module ArcadeTool.
Record requirements_t : Type := { authorization : option Authorization.t }.
Record t : Type := {
  qualified_name : string;
  requirements : option requirements_t
}.
End ArcadeTool.

(** An entry of [config.ARCADE_TOOLS_CONFIG]. *)
Module ToolKit.
Record tool_t : Type := { name : string }.
Record t : Type := {
  enabled : bool;
  toolkit : string;
  description : option string;
  tools : list tool_t
}.
End ToolKit.

(** The [auth_requirement] dict handed to the broker. *)
Module AuthRequirement.
Record t : Type := {
  provider_id : string;
  provider_type : string;
  scopes : list string;
  id : option string
}.
End AuthRequirement.

(** The broker's answer.  As an object it is truthy whatever its fields, so
    [if auth_result:] asks whether there is one. *)
Module AuthorizationResponse.
Record t : Type := { status : option string; url : option string }.
End AuthorizationResponse.

(** A loaded tool module: the two optional configuration classes.  A class
    is its constructor (called with the payload as keyword arguments, it
    validates and may raise) and its [schema()]; an instance is given by its [model_dump()]. *)
Module BaseModel.
Record t : Type := { model_dump : dict }.
End BaseModel.

Module ValvesClass.
Record t : Type := {
  init : dict -> result BaseModel.t;
  schema : json
}.
End ValvesClass.

Module PyModule.
Record t : Type := {
  Valves : option ValvesClass.t;
  UserValves : option ValvesClass.t
}.
End PyModule.

(** [request.app.state.config] *)
Module AppConfig.
Record t : Type := {
  TOOL_SERVER_CONNECTIONS : list Connection.t;
  ARCADE_TOOLS_CONFIG : list ToolKit.t;
  USER_PERMISSIONS : dict
}.
End AppConfig.

(** ** Collaborators

    The persistence table [open_webui.models.tools.Tools].  The state of the
    table is an abstract type [Db]; reads are functions of it, writes return
    the new state next to their result. *)

Module Tools.
(** Modelled from the spec: the persistence store of section 6, whose module
    [open_webui/models/tools.py] is not among the sources.  Every operation
    returns a record snapshot, a list or a boolean; none raises, and absence
    is signalled by [None]. *)
Class Table (Db : Type) : Type := {
  get_tools : Db -> list ToolModel.t;
  get_tools_by_user_id : Db -> string -> string -> list ToolModel.t;
  get_tool_by_id : Db -> string -> option ToolModel.t;
  insert_new_tool :
    Db -> string -> ToolForm.t -> list json -> option ToolModel.t * Db;
  update_tool_by_id : Db -> string -> ToolUpdate.t -> option ToolModel.t * Db;
  delete_tool_by_id : Db -> string -> bool * Db;
  get_tool_valves_by_id : Db -> string -> option dict;
  update_tool_valves_by_id : Db -> string -> dict -> option dict * Db;
  get_user_valves_by_id_and_user_id : Db -> string -> string -> option dict;
  update_user_valves_by_id_and_user_id :
    Db -> string -> string -> dict -> option dict * Db
}.
End Tools.

(** The writes the router issues against the table, in the order issued.
    This log is ghost state: it lets "no persistence call was made" be said
    of a run, whatever the table does with a call. *)
Inductive DbWrite : Type :=
| W_insert_new_tool (user_id : string) (form_data : ToolForm.t)
    (specs : list json)
| W_update_tool_by_id (id : string) (updated : ToolUpdate.t)
| W_delete_tool_by_id (id : string)
| W_update_tool_valves_by_id (id : string) (valves : dict)
| W_update_user_valves_by_id_and_user_id (id : string) (user_id : string)
    (valves : dict).

(** Everything else the router imports and calls.  [authorize] is the
    broker ([client.auth.authorize]); its answer may depend on the calls it
    has received before, which it gets as first argument.  [time_now n] is
    the [n]-th reading [int(time.time())] of the clock.  [mkdir id] is
    [(CACHE_DIR / "tools" / id).mkdir(parents=True, exist_ok=True)].
    [str_HTTPException] is [str(e)] for an [HTTPException], which depends on
    the framework version. *)
Class Collaborators (Db : Type) : Type := {
  has_access : string -> string -> option dict -> bool;
  has_permission : string -> string -> dict -> bool;
  replace_imports : string -> string;
  load_tools_module_by_id :
    Db -> string -> option string -> result (PyModule.t * json);
  get_tools_specs : PyModule.t -> result (list json);
  get_tool_servers_data : list Connection.t -> result (list ToolServer.t);
  authorize :
    list (AuthRequirement.t * string) -> AuthRequirement.t -> string ->
    result (option AuthorizationResponse.t);
  time_now : nat -> Z;
  mkdir : string -> result unit;
  ERROR_MESSAGES : ErrorMessages;
  str_HTTPException : Z -> string -> string
}.

(** [str(e)] *)
Definition str `{Collaborators Db} (e : exn) : string :=
  match e with
  | HTTPException c d => str_HTTPException c d
  | Exception m => m
  end.

(** ** The state a request runs against

    [request.app.state] ([TOOL_SERVERS], [TOOLS], [ARCADE_TOOLS], [config]),
    the table [db], the clock position, and the two ghost logs. *)

Module World.
Record t (Db : Type) : Type := mk {
  TOOL_SERVERS : list ToolServer.t;
  TOOLS : gmap string PyModule.t;
  ARCADE_TOOLS : list ArcadeTool.t;
  config : AppConfig.t;
  db : Db;
  clock : nat;
  db_writes : list DbWrite;
  broker_calls : list (AuthRequirement.t * string)
}.
Arguments mk {Db}.
Arguments TOOL_SERVERS {Db}.
Arguments TOOLS {Db}.
Arguments ARCADE_TOOLS {Db}.
Arguments config {Db}.
Arguments db {Db}.
Arguments clock {Db}.
Arguments db_writes {Db}.
Arguments broker_calls {Db}.

Definition set_TOOL_SERVERS {Db} (v : list ToolServer.t) (w : t Db) : t Db :=
  mk v (TOOLS w) (ARCADE_TOOLS w) (config w) (db w) (clock w) (db_writes w)
     (broker_calls w).
Definition set_TOOLS {Db} (v : gmap string PyModule.t) (w : t Db) : t Db :=
  mk (TOOL_SERVERS w) v (ARCADE_TOOLS w) (config w) (db w) (clock w)
     (db_writes w) (broker_calls w).
Definition tick {Db} (w : t Db) : t Db :=
  mk (TOOL_SERVERS w) (TOOLS w) (ARCADE_TOOLS w) (config w) (db w)
     (S (clock w)) (db_writes w) (broker_calls w).
(** A write: the new table state, and the call appended to the log. *)
Definition write {Db} (d : Db) (c : DbWrite) (w : t Db) : t Db :=
  mk (TOOL_SERVERS w) (TOOLS w) (ARCADE_TOOLS w) (config w) d (clock w)
     (db_writes w ++ [c]) (broker_calls w).
Definition called {Db} (c : AuthRequirement.t * string) (w : t Db) : t Db :=
  mk (TOOL_SERVERS w) (TOOLS w) (ARCADE_TOOLS w) (config w) (db w) (clock w)
     (db_writes w) (broker_calls w ++ [c]).
End World.

(** ** The monad: state passing, with exceptions

    A raised exception keeps the state reached so far, as in Python. *)

Definition M (Db A : Type) : Type := World.t Db -> result A * World.t Db.

Definition ret {Db A} (a : A) : M Db A := fun w => (Ok a, w).

Definition bind {Db A B} (m : M Db A) (k : A -> M Db B) : M Db B :=
  fun w =>
    match m w with
    | (Ok a, w') => k a w'
    | (Raise e, w') => (Raise e, w')
    end.

Definition raise {Db A} (e : exn) : M Db A := fun w => (Raise e, w).

(** [try: body except Exception as e: handler(e)] *)
Definition try_except {Db A} (body : M Db A) (handler : exn -> M Db A) : M Db A :=
  fun w =>
    match body w with
    | (Ok a, w') => (Ok a, w')
    | (Raise e, w') => handler e w'
    end.

Definition gets {Db A} (f : World.t Db -> A) : M Db A := fun w => (Ok (f w), w).

Definition modify {Db} (f : World.t Db -> World.t Db) : M Db unit :=
  fun w => (Ok tt, f w).

(** A call that may raise and leaves the state alone. *)
Definition call {Db A} (r : result A) : M Db A := fun w => (r, w).

Notation "x <- c ;; k" := (bind c (fun x => k))
  (at level 100, c at next level, right associativity).
Notation "c ;;; k" := (bind c (fun _ => k))
  (at level 100, right associativity).

(** ** The handlers *)

Section Router.

Context {Db : Type} `{!Tools.Table Db} `{!Collaborators Db}.

(** *** The table, called from a handler *)

Definition Tools_get_tools : M Db (list ToolModel.t) :=
  gets (fun w => Tools.get_tools (World.db w)).

Definition Tools_get_tools_by_user_id (user_id permission : string) :
  M Db (list ToolModel.t) :=
  gets (fun w => Tools.get_tools_by_user_id (World.db w) user_id permission).

Definition Tools_get_tool_by_id (id : string) : M Db (option ToolModel.t) :=
  gets (fun w => Tools.get_tool_by_id (World.db w) id).

Definition Tools_insert_new_tool (user_id : string) (form_data : ToolForm.t)
  (specs : list json) : M Db (option ToolModel.t) :=
  fun w =>
    let (r, d) := Tools.insert_new_tool (World.db w) user_id form_data specs in
    (Ok r, World.write d (W_insert_new_tool user_id form_data specs) w).

Definition Tools_update_tool_by_id (id : string) (updated : ToolUpdate.t) :
  M Db (option ToolModel.t) :=
  fun w =>
    let (r, d) := Tools.update_tool_by_id (World.db w) id updated in
    (Ok r, World.write d (W_update_tool_by_id id updated) w).

Definition Tools_delete_tool_by_id (id : string) : M Db bool :=
  fun w =>
    let (r, d) := Tools.delete_tool_by_id (World.db w) id in
    (Ok r, World.write d (W_delete_tool_by_id id) w).

Definition Tools_get_tool_valves_by_id (id : string) : M Db (option dict) :=
  gets (fun w => Tools.get_tool_valves_by_id (World.db w) id).

Definition Tools_update_tool_valves_by_id (id : string) (valves : dict) :
  M Db (option dict) :=
  fun w =>
    let (r, d) := Tools.update_tool_valves_by_id (World.db w) id valves in
    (Ok r, World.write d (W_update_tool_valves_by_id id valves) w).

Definition Tools_get_user_valves_by_id_and_user_id (id user_id : string) :
  M Db (option dict) :=
  gets (fun w => Tools.get_user_valves_by_id_and_user_id (World.db w) id user_id).

Definition Tools_update_user_valves_by_id_and_user_id (id user_id : string)
  (valves : dict) : M Db (option dict) :=
  fun w =>
    let (r, d) :=
      Tools.update_user_valves_by_id_and_user_id (World.db w) id user_id valves in
    (Ok r,
     World.write d (W_update_user_valves_by_id_and_user_id id user_id valves) w).

(** *** Shared pieces *)

Definition raise_http {A} (status_code : Z) (detail : string) : M Db A :=
  raise (HTTPException status_code detail).

(** [user.role != "admin"] *)
Definition not_admin (user : UserModel.t) : bool :=
  negb (String.eqb (UserModel.role user) "admin").

(** The write guard of update, delete and valves update:
    [tools.user_id != user.id and not has_access(user.id, "write",
    tools.access_control) and user.role != "admin"]. *)
Definition write_denied (tools : ToolModel.t) (user : UserModel.t) : bool :=
  negb (String.eqb (ToolModel.user_id tools) (UserModel.id user))
  && negb (has_access (UserModel.id user) "write" (ToolModel.access_control tools))
  && not_admin user.

(** The permission guard of create: [user.role != "admin" and not
    has_permission(user.id, "workspace.tools", USER_PERMISSIONS)]. *)
Definition create_denied (user : UserModel.t) (permissions : dict) : bool :=
  not_admin user
  && negb (has_permission (UserModel.id user) "workspace.tools" permissions).

(** [load_tools_module_by_id(id, content=...)]; without content the loader
    fetches it from the table. *)
Definition load (id : string) (content : option string) :
  M Db (PyModule.t * json) :=
  fun w => (load_tools_module_by_id (World.db w) id content, w).

(** [TOOLS[id] = tools_module] *)
Definition TOOLS_set (id : string) (tools_module : PyModule.t) : M Db unit :=
  modify (fun w => World.set_TOOLS (<[id := tools_module]> (World.TOOLS w)) w).

(** [TOOLS[id]] *)
Definition TOOLS_get (id : string) : M Db PyModule.t :=
  m <- gets (fun w => World.TOOLS w !! id) ;;
  match m with
  | Some tools_module => ret tools_module
  | None => raise (Exception ("KeyError: " +:+ id))
  end.

(** The block the four valves handlers share:
    [if id in TOOLS: tools_module = TOOLS[id]] and otherwise
    [tools_module, _ = load_tools_module_by_id(id); TOOLS[id] = tools_module]. *)
Definition cached_or_loaded (id : string) : M Db PyModule.t :=
  cached <- gets (fun w => World.TOOLS w !! id) ;;
  match cached with
  | Some tools_module => ret tools_module
  | None =>
      lm <- load id None ;;
      TOOLS_set id (fst lm) ;;;
      ret (fst lm)
  end.

(** *** GET /list, GET /export *)

Definition get_tool_list (user : UserModel.t) : M Db (list ToolModel.t) :=
  if String.eqb (UserModel.role user) "admin"
  then Tools_get_tools
  else Tools_get_tools_by_user_id (UserModel.id user) "write".

Definition export_tools (user : UserModel.t) : M Db (list ToolModel.t) :=
  Tools_get_tools.

(** *** POST /create *)

Definition create_new_tools (form_data : ToolForm.t) (user : UserModel.t) :
  M Db ToolModel.t :=
  permissions <- gets (fun w => AppConfig.USER_PERMISSIONS (World.config w)) ;;
  if create_denied user permissions
  then raise_http HTTP_401_UNAUTHORIZED (UNAUTHORIZED ERROR_MESSAGES)
  else if negb (PyStr.isidentifier (ToolForm.id form_data))
  then raise_http HTTP_400_BAD_REQUEST
         "Only alphanumeric characters and underscores are allowed in the id"
  else
    let form_data :=
      ToolForm.with_id (PyStr.lower (ToolForm.id form_data)) form_data in
    tools <- Tools_get_tool_by_id (ToolForm.id form_data) ;;
    match tools with
    | None =>
        try_except
          (let form_data :=
             ToolForm.with_content
               (replace_imports (ToolForm.content form_data)) form_data in
           lm <- load (ToolForm.id form_data)
                      (Some (ToolForm.content form_data)) ;;
           let form_data := ToolForm.with_manifest (snd lm) form_data in
           TOOLS_set (ToolForm.id form_data) (fst lm) ;;;
           tools_module <- TOOLS_get (ToolForm.id form_data) ;;
           specs <- call (get_tools_specs tools_module) ;;
           tools <- Tools_insert_new_tool (UserModel.id user) form_data specs ;;
           call (mkdir (ToolForm.id form_data)) ;;;
           match tools with
           | Some t => ret t
           | None =>
               raise_http HTTP_400_BAD_REQUEST
                 (DEFAULT ERROR_MESSAGES "Error creating tools")
           end)
          (fun e =>
             raise_http HTTP_400_BAD_REQUEST (DEFAULT ERROR_MESSAGES (str e)))
    | Some _ => raise_http HTTP_400_BAD_REQUEST (ID_TAKEN ERROR_MESSAGES)
    end.

(** *** GET /id/{id}

    When the record is there and the caller may not read it, neither branch
    returns nor raises: the function ends, which yields [None]. *)

Definition get_tools_by_id (id : string) (user : UserModel.t) :
  M Db (option ToolModel.t) :=
  tools <- Tools_get_tool_by_id id ;;
  match tools with
  | Some t =>
      if String.eqb (UserModel.role user) "admin"
         || String.eqb (ToolModel.user_id t) (UserModel.id user)
         || has_access (UserModel.id user) "read" (ToolModel.access_control t)
      then ret (Some t)
      else ret None
  | None => raise_http HTTP_401_UNAUTHORIZED (NOT_FOUND ERROR_MESSAGES)
  end.

(** *** POST /id/{id}/update *)

Definition update_tools_by_id (id : string) (form_data : ToolForm.t)
  (user : UserModel.t) : M Db ToolModel.t :=
  tools <- Tools_get_tool_by_id id ;;
  match tools with
  | None => raise_http HTTP_401_UNAUTHORIZED (NOT_FOUND ERROR_MESSAGES)
  | Some t =>
      if write_denied t user
      then raise_http HTTP_401_UNAUTHORIZED (UNAUTHORIZED ERROR_MESSAGES)
      else
        try_except
          (let form_data :=
             ToolForm.with_content
               (replace_imports (ToolForm.content form_data)) form_data in
           lm <- load id (Some (ToolForm.content form_data)) ;;
           let form_data := ToolForm.with_manifest (snd lm) form_data in
           TOOLS_set id (fst lm) ;;;
           tools_module <- TOOLS_get id ;;
           specs <- call (get_tools_specs tools_module) ;;
           let updated := ToolUpdate.of_form form_data specs in
           tools <- Tools_update_tool_by_id id updated ;;
           match tools with
           | Some t' => ret t'
           | None =>
               raise_http HTTP_400_BAD_REQUEST
                 (DEFAULT ERROR_MESSAGES "Error updating tools")
           end)
          (fun e =>
             raise_http HTTP_400_BAD_REQUEST (DEFAULT ERROR_MESSAGES (str e)))
  end.

(** *** DELETE /id/{id}/delete *)

Definition delete_tools_by_id (id : string) (user : UserModel.t) : M Db bool :=
  tools <- Tools_get_tool_by_id id ;;
  match tools with
  | None => raise_http HTTP_401_UNAUTHORIZED (NOT_FOUND ERROR_MESSAGES)
  | Some t =>
      if write_denied t user
      then raise_http HTTP_401_UNAUTHORIZED (UNAUTHORIZED ERROR_MESSAGES)
      else
        result <- Tools_delete_tool_by_id id ;;
        (* [if id in TOOLS: del TOOLS[id]]; [delete] leaves a map without
           the key as it is *)
        (if result : bool
         then modify (fun w => World.set_TOOLS (delete id (World.TOOLS w)) w)
         else ret tt) ;;;
        ret result
  end.

(** *** GET /id/{id}/valves and its siblings *)

Definition get_tools_valves_by_id (id : string) (user : UserModel.t) :
  M Db (option dict) :=
  tools <- Tools_get_tool_by_id id ;;
  match tools with
  | Some _ =>
      try_except
        (valves <- Tools_get_tool_valves_by_id id ;;
         ret valves)
        (fun e =>
           raise_http HTTP_400_BAD_REQUEST (DEFAULT ERROR_MESSAGES (str e)))
  | None => raise_http HTTP_401_UNAUTHORIZED (NOT_FOUND ERROR_MESSAGES)
  end.

Definition get_tools_valves_spec_by_id (id : string) (user : UserModel.t) :
  M Db (option json) :=
  tools <- Tools_get_tool_by_id id ;;
  match tools with
  | Some _ =>
      tools_module <- cached_or_loaded id ;;
      match PyModule.Valves tools_module with
      | Some Valves => ret (Some (ValvesClass.schema Valves))
      | None => ret None
      end
  | None => raise_http HTTP_401_UNAUTHORIZED (NOT_FOUND ERROR_MESSAGES)
  end.

Definition update_tools_valves_by_id (id : string) (form_data : dict)
  (user : UserModel.t) : M Db dict :=
  tools <- Tools_get_tool_by_id id ;;
  match tools with
  | None => raise_http HTTP_401_UNAUTHORIZED (NOT_FOUND ERROR_MESSAGES)
  | Some t =>
      if write_denied t user
      then raise_http HTTP_400_BAD_REQUEST (ACCESS_PROHIBITED ERROR_MESSAGES)
      else
        tools_module <- cached_or_loaded id ;;
        match PyModule.Valves tools_module with
        | None => raise_http HTTP_401_UNAUTHORIZED (NOT_FOUND ERROR_MESSAGES)
        | Some Valves =>
            try_except
              (let form_data := drop_none form_data in
               valves <- call (ValvesClass.init Valves form_data) ;;
               Tools_update_tool_valves_by_id id (BaseModel.model_dump valves) ;;;
               ret (BaseModel.model_dump valves))
              (fun e =>
                 raise_http HTTP_400_BAD_REQUEST
                   (DEFAULT ERROR_MESSAGES (str e)))
        end
  end.

Definition get_tools_user_valves_by_id (id : string) (user : UserModel.t) :
  M Db (option dict) :=
  tools <- Tools_get_tool_by_id id ;;
  match tools with
  | Some _ =>
      try_except
        (user_valves <-
           Tools_get_user_valves_by_id_and_user_id id (UserModel.id user) ;;
         ret user_valves)
        (fun e =>
           raise_http HTTP_400_BAD_REQUEST (DEFAULT ERROR_MESSAGES (str e)))
  | None => raise_http HTTP_401_UNAUTHORIZED (NOT_FOUND ERROR_MESSAGES)
  end.

Definition get_tools_user_valves_spec_by_id (id : string) (user : UserModel.t) :
  M Db (option json) :=
  tools <- Tools_get_tool_by_id id ;;
  match tools with
  | Some _ =>
      tools_module <- cached_or_loaded id ;;
      match PyModule.UserValves tools_module with
      | Some UserValves => ret (Some (ValvesClass.schema UserValves))
      | None => ret None
      end
  | None => raise_http HTTP_401_UNAUTHORIZED (NOT_FOUND ERROR_MESSAGES)
  end.

Definition update_tools_user_valves_by_id (id : string) (form_data : dict)
  (user : UserModel.t) : M Db dict :=
  tools <- Tools_get_tool_by_id id ;;
  match tools with
  | Some _ =>
      tools_module <- cached_or_loaded id ;;
      match PyModule.UserValves tools_module with
      | Some UserValves =>
          try_except
            (let form_data := drop_none form_data in
             user_valves <- call (ValvesClass.init UserValves form_data) ;;
             Tools_update_user_valves_by_id_and_user_id id (UserModel.id user)
               (BaseModel.model_dump user_valves) ;;;
             ret (BaseModel.model_dump user_valves))
            (fun e =>
               raise_http HTTP_400_BAD_REQUEST (DEFAULT ERROR_MESSAGES (str e)))
      | None => raise_http HTTP_401_UNAUTHORIZED (NOT_FOUND ERROR_MESSAGES)
      end
  | None => raise_http HTTP_401_UNAUTHORIZED (NOT_FOUND ERROR_MESSAGES)
  end.

(** *** GET /: the catalog listing *)

(** [int(time.time())] *)
Definition now : M Db Z :=
  fun w => (Ok (time_now (World.clock w)), World.tick w).

(** [client.auth.authorize(auth_requirement=..., user_id=...)] *)
Definition client_auth_authorize (auth_requirement : AuthRequirement.t)
  (user_id : string) : M Db (option AuthorizationResponse.t) :=
  fun w =>
    (authorize (World.broker_calls w) auth_requirement user_id,
     World.called (auth_requirement, user_id) w).

(** The response appended for one cached server (the body of the first
    loop).  The entries of the dict display are evaluated in order, so the
    index into the connections is taken before the clock is read. *)
Definition tool_server_response (idx : nat) (server : ToolServer.t) :
  M Db ToolUserResponse.t :=
  let info := default OpenAPIInfo.empty (ToolServer.info server) in
  connections <-
    gets (fun w => AppConfig.TOOL_SERVER_CONNECTIONS (World.config w)) ;;
  match connections !! idx with
  | None => raise (Exception "IndexError: list index out of range")
  | Some connection =>
      let access_control :=
        match Connection.config connection with
        | Some c => Connection.access_control c
        | None => None
        end in
      updated_at <- now ;;
      created_at <- now ;;
      ret {| ToolUserResponse.id := "server:" +:+ pretty (ToolServer.idx server);
             ToolUserResponse.user_id :=
               "server:" +:+ pretty (ToolServer.idx server);
             ToolUserResponse.name :=
               default "Tool Server" (OpenAPIInfo.title info);
             ToolUserResponse.meta :=
               [("description",
                 JStr (default "" (OpenAPIInfo.description info)))];
             ToolUserResponse.access_control := access_control;
             ToolUserResponse.updated_at := updated_at;
             ToolUserResponse.created_at := created_at |}
  end.

(** [for idx, server in enumerate(TOOL_SERVERS): tools.append(...)] *)
Fixpoint append_tool_servers (idx : nat) (servers : list ToolServer.t)
  (tools : list entry) : M Db (list entry) :=
  match servers with
  | [] => ret tools
  | server :: rest =>
      r <- tool_server_response idx server ;;
      append_tool_servers (S idx) rest (tools ++ [Synth r])
  end.

(** [arcade_tool_mapper[tool.qualified_name] = tool], over [ARCADE_TOOLS]. *)
Definition arcade_tool_mapper (arcade_tools : list ArcadeTool.t) :
  gmap string ArcadeTool.t :=
  foldl (fun mapper tool => <[ArcadeTool.qualified_name tool := tool]> mapper)
        ∅ arcade_tools.

(** The locals of the scan over a toolkit's member tools. *)
Record auth_vars : Type := {
  all_scopes : gset string;
  auth_id : option string;
  auth_provider_id : option string;
  auth_provider_type : option string
}.

Definition auth_vars_init : auth_vars :=
  {| all_scopes := ∅; auth_id := None; auth_provider_id := None;
     auth_provider_type := None |}.

(** The scopes reached by [if auth.oauth2 and auth.oauth2.scopes]. *)
Definition oauth2_scopes (auth : Authorization.t) : list string :=
  match Authorization.oauth2 auth with
  | Some o =>
      match OAuth2.scopes o with
      | Some scopes => scopes
      | None => []
      end
  | None => []
  end.

(** One round of [for tool in tool_kit.get('tools')]. *)
Definition scan_tool (mapper : gmap string ArcadeTool.t)
  (tool : ToolKit.tool_t) (v : auth_vars) : result auth_vars :=
  match mapper !! ToolKit.name tool with
  | None => Raise (Exception ("KeyError: " +:+ ToolKit.name tool))
  | Some arcade_tool =>
      match ArcadeTool.requirements arcade_tool with
      | Some requirements =>
          match ArcadeTool.authorization requirements with
          | Some auth =>
              Ok {| all_scopes :=
                      match oauth2_scopes auth with
                      | [] => all_scopes v
                      | scopes => all_scopes v ∪ list_to_set scopes
                      end;
                    auth_id := PyStr.py_or (auth_id v) (Authorization.id auth);
                    auth_provider_id :=
                      PyStr.py_or (auth_provider_id v)
                                  (Authorization.provider_id auth);
                    auth_provider_type :=
                      PyStr.py_or (auth_provider_type v)
                                  (Authorization.provider_type auth) |}
          | None => Ok v
          end
      | None => Ok v
      end
  end.

Fixpoint scan_tools (mapper : gmap string ArcadeTool.t)
  (tools : list ToolKit.tool_t) (v : auth_vars) : result auth_vars :=
  match tools with
  | [] => Ok v
  | tool :: rest =>
      match scan_tool mapper tool v with
      | Ok v' => scan_tools mapper rest v'
      | Raise e => Raise e
      end
  end.

(** [if auth_provider_id and auth_provider_type:] the requirement dict,
    with its ["id"] set to [auth_id] when that is truthy and to [None]
    otherwise. *)
Definition auth_requirement_of (v : auth_vars) : option AuthRequirement.t :=
  match auth_provider_id v, auth_provider_type v with
  | Some provider_id, Some provider_type =>
      if PyStr.truthy (Some provider_id) && PyStr.truthy (Some provider_type)
      then Some {| AuthRequirement.provider_id := provider_id;
                   AuthRequirement.provider_type := provider_type;
                   AuthRequirement.scopes := elements (all_scopes v);
                   AuthRequirement.id :=
                     if PyStr.truthy (auth_id v) then auth_id v else None |}
      else None
  | _, _ => None
  end.

(** The response appended for one enabled toolkit. *)
Definition arcade_response (idx : nat) (tool_kit : ToolKit.t)
  (auth_result : option AuthorizationResponse.t) (updated_at created_at : Z) :
  ToolUserResponse.t :=
  {| ToolUserResponse.id := "arcade:" +:+ pretty idx;
     ToolUserResponse.user_id := "arcade:" +:+ pretty idx;
     ToolUserResponse.name := ToolKit.toolkit tool_kit;
     ToolUserResponse.meta :=
       match auth_result with
       | Some r =>
           [("description", json_of_opt_str (ToolKit.description tool_kit));
            ("auth_completed",
             JBool (bool_decide
                      (AuthorizationResponse.status r = Some "completed")));
            ("auth_url", json_of_opt_str (AuthorizationResponse.url r))]
       | None =>
           [("description", json_of_opt_str (ToolKit.description tool_kit));
            ("auth_completed", JBool true);
            ("auth_url", JNone)]
       end;
     ToolUserResponse.access_control := None;
     ToolUserResponse.updated_at := updated_at;
     ToolUserResponse.created_at := created_at |}.

(** The body of the second loop for an enabled toolkit. *)
Definition tool_kit_response (mapper : gmap string ArcadeTool.t)
  (user : UserModel.t) (idx : nat) (tool_kit : ToolKit.t) :
  M Db ToolUserResponse.t :=
  v <- call (scan_tools mapper (ToolKit.tools tool_kit) auth_vars_init) ;;
  auth_result <-
    match auth_requirement_of v with
    | Some auth_requirement =>
        client_auth_authorize auth_requirement (UserModel.id user)
    | None => ret None
    end ;;
  updated_at <- now ;;
  created_at <- now ;;
  ret (arcade_response idx tool_kit auth_result updated_at created_at).

(** [for idx, tool_kit in enumerate(ARCADE_TOOLS_CONFIG)] *)
Fixpoint append_tool_kits (mapper : gmap string ArcadeTool.t)
  (user : UserModel.t) (idx : nat) (tool_kits : list ToolKit.t)
  (tools : list entry) : M Db (list entry) :=
  match tool_kits with
  | [] => ret tools
  | tool_kit :: rest =>
      if ToolKit.enabled tool_kit
      then
        r <- tool_kit_response mapper user idx tool_kit ;;
        append_tool_kits mapper user (S idx) rest (tools ++ [Synth r])
      else append_tool_kits mapper user (S idx) rest tools
  end.

(** The list [tools] as it stands before the role check.  The broker client
    ([client = Arcade()]) is built once per request and carries no state of
    its own; building it is taken to succeed. *)
Definition merged_tools (user : UserModel.t) : M Db (list entry) :=
  servers <- gets World.TOOL_SERVERS ;;
  match servers with
  | [] =>
      connections <-
        gets (fun w => AppConfig.TOOL_SERVER_CONNECTIONS (World.config w)) ;;
      data <- call (get_tool_servers_data connections) ;;
      modify (World.set_TOOL_SERVERS data)
  | _ :: _ => ret tt
  end ;;;
  tools <- Tools_get_tools ;;
  servers <- gets World.TOOL_SERVERS ;;
  tools <- append_tool_servers 0 servers (map Stored tools) ;;
  arcade_tools <- gets World.ARCADE_TOOLS ;;
  let mapper := arcade_tool_mapper arcade_tools in
  tool_kits <- gets (fun w => AppConfig.ARCADE_TOOLS_CONFIG (World.config w)) ;;
  append_tool_kits mapper user 0 tool_kits tools.

(** [tool.user_id == user.id or has_access(user.id, "read",
    tool.access_control)] *)
Definition visible_to (user : UserModel.t) (tool : entry) : bool :=
  String.eqb (entry_user_id tool) (UserModel.id user)
  || has_access (UserModel.id user) "read" (entry_access_control tool).

Definition get_tools (user : UserModel.t) : M Db (list entry) :=
  tools <- merged_tools user ;;
  if not_admin user
  then ret (List.filter (visible_to user) tools)
  else ret tools.

End Router.

(** ** Vocabulary of the statements *)

(** The state after a delete that went through to the table. *)
Definition after_delete {Db} (id : string) (result : bool) (d : Db)
  (w : World.t Db) : World.t Db :=
  let w1 := World.write d (W_delete_tool_by_id id) w in
  if result then World.set_TOOLS (delete id (World.TOOLS w1)) w1 else w1.

(** The source text of a request fails to load or validate with [e]: the
    loader raises [e], or the loader succeeds and deriving the specs of the
    loaded module raises [e]. *)
Definition source_fails `{!Collaborators Db} (d : Db) (id content : string)
  (e : exn) : Prop :=
  load_tools_module_by_id d id (Some content) = Raise e
  \/ exists m frontmatter,
      load_tools_module_by_id d id (Some content) = Ok (m, frontmatter)
      /\ get_tools_specs m = Raise e.

(** The table and the log of writes are the same in both states. *)
Definition same_table {Db} (w w' : World.t Db) : Prop :=
  World.db w' = World.db w /\ World.db_writes w' = World.db_writes w.

(** Nothing but the clock and the log of broker calls differs. *)
Definition same_app {Db} (w w' : World.t Db) : Prop :=
  World.TOOL_SERVERS w' = World.TOOL_SERVERS w
  /\ World.TOOLS w' = World.TOOLS w
  /\ World.ARCADE_TOOLS w' = World.ARCADE_TOOLS w
  /\ World.config w' = World.config w
  /\ World.db w' = World.db w
  /\ World.db_writes w' = World.db_writes w.

(** [o] when it is truthy, [None] otherwise. *)
Definition non_empty (o : option string) : option string :=
  if PyStr.truthy o then o else None.

(** One authorization folded into the locals. *)
Definition absorb (v : auth_vars) (auth : Authorization.t) : auth_vars :=
  {| all_scopes := all_scopes v ∪ list_to_set (oauth2_scopes auth);
     auth_id := PyStr.py_or (auth_id v) (Authorization.id auth);
     auth_provider_id :=
       PyStr.py_or (auth_provider_id v) (Authorization.provider_id auth);
     auth_provider_type :=
       PyStr.py_or (auth_provider_type v) (Authorization.provider_type auth) |}.

(** ** What the listing is meant to hand to the broker

    These definitions follow the wording of the specification, not the
    code: the authorizations declared by a toolkit's member tools, the
    union of their scopes, and the first non-empty value of a field. *)

Definition member_authorization (mapper : gmap string ArcadeTool.t)
  (tool : ToolKit.tool_t) : option Authorization.t :=
  arcade_tool ← mapper !! ToolKit.name tool;
  requirements ← ArcadeTool.requirements arcade_tool;
  ArcadeTool.authorization requirements.

Definition member_authorizations (mapper : gmap string ArcadeTool.t)
  (tool_kit : ToolKit.t) : list Authorization.t :=
  omap (member_authorization mapper) (ToolKit.tools tool_kit).

Definition declared_scopes (auths : list Authorization.t) : gset string :=
  ⋃ (map (fun auth => list_to_set (oauth2_scopes auth)) auths).

Fixpoint first_non_empty (values : list (option string)) : option string :=
  match values with
  | [] => None
  | v :: rest => if PyStr.truthy v then v else first_non_empty rest
  end.

(** The broker call the specification prescribes for a toolkit, if any:
    none unless a provider id and a provider type are found. *)
Definition prescribed_requirement (mapper : gmap string ArcadeTool.t)
  (tool_kit : ToolKit.t) : option AuthRequirement.t :=
  let auths := member_authorizations mapper tool_kit in
  match first_non_empty (map Authorization.provider_id auths),
        first_non_empty (map Authorization.provider_type auths) with
  | Some provider_id, Some provider_type =>
      Some {| AuthRequirement.provider_id := provider_id;
              AuthRequirement.provider_type := provider_type;
              AuthRequirement.scopes := elements (declared_scopes auths);
              AuthRequirement.id :=
                first_non_empty (map Authorization.id auths) |}
  | _, _ => None
  end.

Definition prescribed_calls (mapper : gmap string ArcadeTool.t)
  (user_id : string) (tool_kits : list ToolKit.t) :
  list (AuthRequirement.t * string) :=
  omap (fun tool_kit =>
          if ToolKit.enabled tool_kit
          then option_map (fun r => (r, user_id))
                 (prescribed_requirement mapper tool_kit)
          else None)
       tool_kits.

(** The ids of the toolkit entries: one per enabled toolkit, numbered by
    position in the configuration. *)
Fixpoint arcade_ids (idx : nat) (tool_kits : list ToolKit.t) : list string :=
  match tool_kits with
  | [] => []
  | tool_kit :: rest =>
      if ToolKit.enabled tool_kit
      then ("arcade:" +:+ pretty idx) :: arcade_ids (S idx) rest
      else arcade_ids (S idx) rest
  end.

(** The calls one toolkit adds to the broker's log. *)
Definition calls_of (mapper : gmap string ArcadeTool.t) (user_id : string)
  (tool_kit : ToolKit.t) : list (AuthRequirement.t * string) :=
  match prescribed_requirement mapper tool_kit with
  | Some r => [(r, user_id)]
  | None => []
  end.

(** What the broker answers for a toolkit, given the calls it has seen; no
    requirement, no call and no answer. *)
Definition broker_answer `{!Collaborators Db}
  (calls : list (AuthRequirement.t * string)) (user_id : string)
  (requirement : option AuthRequirement.t) :
  result (option AuthorizationResponse.t) :=
  match requirement with
  | Some r => authorize calls r user_id
  | None => Ok None
  end.

(** The answers for the enabled toolkits of a configuration, in order, up
    to the first call that raises. *)
Fixpoint broker_answers `{!Collaborators Db}
  (mapper : gmap string ArcadeTool.t) (user_id : string)
  (calls : list (AuthRequirement.t * string)) (tool_kits : list ToolKit.t) :
  list (option AuthorizationResponse.t) :=
  match tool_kits with
  | [] => []
  | tool_kit :: rest =>
      if ToolKit.enabled tool_kit
      then
        match broker_answer calls user_id
                (prescribed_requirement mapper tool_kit) with
        | Ok ans =>
            ans :: broker_answers mapper user_id
                     (calls ++ calls_of mapper user_id tool_kit) rest
        | Raise _ => []
        end
      else broker_answers mapper user_id calls rest
  end.

(** The authorization state an entry is to show for an answer: completed
    and without URL when there is no answer, else whether the status is
    ["completed"], and the URL as answered. *)
Definition auth_state (ans : option AuthorizationResponse.t) :
  option json * option json :=
  match ans with
  | None => (Some (JBool true), Some JNone)
  | Some a =>
      (Some (JBool (bool_decide
                      (AuthorizationResponse.status a = Some "completed"))),
       Some (json_of_opt_str (AuthorizationResponse.url a)))
  end.

(** The authorization state an entry shows: its ["auth_completed"] and its
    ["auth_url"]. *)
Definition shown_auth_state (r : ToolUserResponse.t) :
  option json * option json :=
  (dict_get "auth_completed" (ToolUserResponse.meta r),
   dict_get "auth_url" (ToolUserResponse.meta r)).

(** What the listing keeps of a list of entries for a caller. *)
Definition kept `{!Collaborators Db} (user : UserModel.t) (tools : list entry) :
  list entry :=
  if not_admin user then List.filter (visible_to user) tools else tools.

(** ** A reference instance

    An in-memory table and fixed collaborators, to run the handlers on
    concrete requests. *)

Module Demo.

(** Modelled from the spec: the persistence store of section 6 as maps from
    ids to records and to valve settings.  Deleting answers [true] exactly
    when the id was there. *)
Record table : Type := {
  rows : gmap string ToolModel.t;
  valves : gmap string dict;
  user_valves : gmap (string * string) dict
}.

Definition row_of (user_id : string) (f : ToolForm.t) (sp : list json) :
  ToolModel.t :=
  {| ToolModel.id := ToolForm.id f; ToolModel.user_id := user_id;
     ToolModel.name := ToolForm.name f; ToolModel.content := ToolForm.content f;
     ToolModel.specs := sp; ToolModel.meta := ToolForm.meta f;
     ToolModel.access_control := ToolForm.access_control f;
     ToolModel.updated_at := 0; ToolModel.created_at := 0 |}.

Definition patch (u : ToolUpdate.t) (t : ToolModel.t) : ToolModel.t :=
  {| ToolModel.id := ToolModel.id t; ToolModel.user_id := ToolModel.user_id t;
     ToolModel.name := ToolUpdate.name u;
     ToolModel.content := ToolUpdate.content u;
     ToolModel.specs := ToolUpdate.specs u; ToolModel.meta := ToolUpdate.meta u;
     ToolModel.access_control := ToolUpdate.access_control u;
     ToolModel.updated_at := ToolModel.updated_at t;
     ToolModel.created_at := ToolModel.created_at t |}.

#[global] Instance table_ops : Tools.Table table := {|
  Tools.get_tools := fun d => map snd (map_to_list (rows d));
  Tools.get_tools_by_user_id := fun d user_id _ =>
    List.filter (fun t => String.eqb (ToolModel.user_id t) user_id)
                (map snd (map_to_list (rows d)));
  Tools.get_tool_by_id := fun d id => rows d !! id;
  Tools.insert_new_tool := fun d user_id f sp =>
    let t := row_of user_id f sp in
    (Some t,
     {| rows := <[ToolForm.id f := t]> (rows d); valves := valves d;
        user_valves := user_valves d |});
  Tools.update_tool_by_id := fun d id u =>
    match rows d !! id with
    | Some t =>
        (Some (patch u t),
         {| rows := <[id := patch u t]> (rows d); valves := valves d;
            user_valves := user_valves d |})
    | None => (None, d)
    end;
  Tools.delete_tool_by_id := fun d id =>
    (bool_decide (is_Some (rows d !! id)),
     {| rows := delete id (rows d); valves := delete id (valves d);
        user_valves := user_valves d |});
  Tools.get_tool_valves_by_id := fun d id => valves d !! id;
  Tools.update_tool_valves_by_id := fun d id v =>
    (Some v,
     {| rows := rows d; valves := <[id := v]> (valves d);
        user_valves := user_valves d |});
  Tools.get_user_valves_by_id_and_user_id := fun d id user_id =>
    user_valves d !! (id, user_id);
  Tools.update_user_valves_by_id_and_user_id := fun d id user_id v =>
    (Some v,
     {| rows := rows d; valves := valves d;
        user_valves := <[(id, user_id) := v]> (user_valves d) |})
|}.

Definition mentions (user_id : string) (v : json) : bool :=
  match v with
  | JStr s => String.eqb s user_id
  | _ => false
  end.

(** Access control: no value grants reading to all and writing to none; a
    dict grants a mode to the users it lists under that mode. *)
Definition grants (user_id mode : string) (access_control : option dict) :
  bool :=
  match access_control with
  | None => String.eqb mode "read"
  | Some d =>
      match dict_get mode d with
      | Some (JDict g) =>
          match dict_get "user_ids" g with
          | Some (JList l) => existsb (mentions user_id) l
          | _ => false
          end
      | _ => false
      end
  end.

(** A valves class with a single text field ["key"]. *)
Definition KeyValves : ValvesClass.t :=
  {| ValvesClass.init := fun d =>
       match dict_get "key" d with
       | Some (JStr _) | None => Ok {| BaseModel.model_dump := d |}
       | Some _ => Raise (Exception "key: Input should be a valid string")
       end;
     ValvesClass.schema := JDict [("title", JStr "Valves")] |}.

Definition tools_module : PyModule.t :=
  {| PyModule.Valves := Some KeyValves; PyModule.UserValves := Some KeyValves |}.

(** The loader rejects empty source text. *)
Definition loader (d : table) (id : string) (content : option string) :
  result (PyModule.t * json) :=
  let source :=
    match content with
    | Some c => Some c
    | None => ToolModel.content <$> rows d !! id
    end in
  match source with
  | Some "" => Raise (Exception "No Tools class found")
  | Some _ => Ok (tools_module, JDict [])
  | None => Raise (Exception "Toolkit not found")
  end.

Definition answer : AuthorizationResponse.t :=
  {| AuthorizationResponse.status := Some "pending";
     AuthorizationResponse.url := Some "https://broker.example/authorize" |}.

#[global] Instance collaborators : Collaborators table := {|
  has_access := grants;
  has_permission := fun _ _ _ => false;
  replace_imports := fun content => content;
  load_tools_module_by_id := loader;
  get_tools_specs := fun _ => Ok [];
  get_tool_servers_data := fun connections =>
    Ok (imap (fun i _ => {| ToolServer.idx := i; ToolServer.info := None |})
             connections);
  authorize := fun _ _ _ => Ok (Some answer);
  time_now := fun n => 1700000000 + Z.of_nat n;
  mkdir := fun _ => Ok tt;
  ERROR_MESSAGES :=
    {| NOT_FOUND := "We could not find what you're looking for :/";
       UNAUTHORIZED := "401 Unauthorized";
       ID_TAKEN := "Uh-oh! This id is already registered.";
       ACCESS_PROHIBITED :=
         "You do not have permission to access this resource.";
       DEFAULT := fun err =>
         if String.eqb err "" then "Something went wrong :/"
         else "[ERROR: " +:+ err +:+ "]" |};
  str_HTTPException := fun c d => d
|}.

Definition u1 : UserModel.t := {| UserModel.id := "u1"; UserModel.role := "user" |}.
Definition u3 : UserModel.t := {| UserModel.id := "u3"; UserModel.role := "user" |}.
Definition root : UserModel.t :=
  {| UserModel.id := "root"; UserModel.role := "admin" |}.

Definition calc : ToolModel.t :=
  {| ToolModel.id := "calc"; ToolModel.user_id := "u1";
     ToolModel.name := "Calculator"; ToolModel.content := "class Tools: pass";
     ToolModel.specs := []; ToolModel.meta := [];
     ToolModel.access_control := None;
     ToolModel.updated_at := 0; ToolModel.created_at := 0 |}.

(** A tool of [u1] readable by [u2] only. *)
Definition notes : ToolModel.t :=
  {| ToolModel.id := "notes"; ToolModel.user_id := "u1";
     ToolModel.name := "Notes"; ToolModel.content := "class Tools: pass";
     ToolModel.specs := []; ToolModel.meta := [];
     ToolModel.access_control :=
       Some [("read", JDict [("user_ids", JList [JStr "u2"])])];
     ToolModel.updated_at := 0; ToolModel.created_at := 0 |}.

Definition table_of (l : list ToolModel.t) : table :=
  {| rows := list_to_map (map (fun t => (ToolModel.id t, t)) l);
     valves := ∅; user_valves := ∅ |}.

Definition no_config : AppConfig.t :=
  {| AppConfig.TOOL_SERVER_CONNECTIONS := [];
     AppConfig.ARCADE_TOOLS_CONFIG := [];
     AppConfig.USER_PERMISSIONS := [] |}.

Definition world_of (l : list ToolModel.t) : World.t table :=
  World.mk [] ∅ [] no_config (table_of l) 0 [] [].

Definition form (id content : string) : ToolForm.t :=
  {| ToolForm.id := id; ToolForm.name := "Tool"; ToolForm.content := content;
     ToolForm.meta := []; ToolForm.access_control := None |}.

(** A configuration with one remote server and two toolkits, the first of
    them switched off. *)
Definition oauth (id provider : option string) (scopes : list string) :
  ArcadeTool.requirements_t :=
  {| ArcadeTool.authorization :=
       Some {| Authorization.id := id; Authorization.provider_id := provider;
               Authorization.provider_type := Some "oauth2";
               Authorization.oauth2 :=
                 Some {| OAuth2.scopes := Some scopes |} |} |}.

Definition arcade_tools : list ArcadeTool.t :=
  [ {| ArcadeTool.qualified_name := "Math.Add";
       ArcadeTool.requirements := None |};
    {| ArcadeTool.qualified_name := "Mail.Send";
       ArcadeTool.requirements := Some (oauth (Some "") (Some "google") ["send"; "read"]) |};
    {| ArcadeTool.qualified_name := "Mail.List";
       ArcadeTool.requirements := Some (oauth (Some "g1") (Some "other") ["read"]) |} ].

Definition math_kit : ToolKit.t :=
  {| ToolKit.enabled := false; ToolKit.toolkit := "Math";
     ToolKit.description := None;
     ToolKit.tools := [ {| ToolKit.name := "Math.Add" |} ] |}.

Definition mail_kit : ToolKit.t :=
  {| ToolKit.enabled := true; ToolKit.toolkit := "Mail";
     ToolKit.description := Some "Mail tools";
     ToolKit.tools :=
       [ {| ToolKit.name := "Math.Add" |};
         {| ToolKit.name := "Mail.Send" |};
         {| ToolKit.name := "Mail.List" |} ] |}.

Definition busy_config : AppConfig.t :=
  {| AppConfig.TOOL_SERVER_CONNECTIONS :=
       [ {| Connection.config := Some {| Connection.access_control := None |} |} ];
     AppConfig.ARCADE_TOOLS_CONFIG := [math_kit; mail_kit];
     AppConfig.USER_PERMISSIONS := [] |}.

(** The locals after the scan over the members of [mail_kit]. *)
Definition mail_vars : auth_vars :=
  {| all_scopes := {["send"; "read"]}; auth_id := Some "g1";
     auth_provider_id := Some "google"; auth_provider_type := Some "oauth2" |}.

Definition busy_world : World.t table :=
  World.mk [] ∅ arcade_tools busy_config (table_of [calc; notes]) 0 [] [].

End Demo.

(** ** Vocabulary of the further statements *)

(** The listing from the table read on (the part of the merge that follows
    the look at the cache of tool servers). *)
Definition merged_from_cache `{!Tools.Table Db} `{!Collaborators Db}
  (user : UserModel.t) : M Db (list entry) :=
  tools <- Tools_get_tools ;;
  servers <- gets World.TOOL_SERVERS ;;
  tools <- append_tool_servers 0 servers (map Stored tools) ;;
  arcade_tools <- gets World.ARCADE_TOOLS ;;
  let mapper := arcade_tool_mapper arcade_tools in
  tool_kits <- gets (fun w => AppConfig.ARCADE_TOOLS_CONFIG (World.config w)) ;;
  append_tool_kits mapper user 0 tool_kits tools.

(** [connection.get("config", {}).get("access_control", None)] *)
Definition connection_access_control (connection : Connection.t) :
  option dict :=
  match Connection.config connection with
  | Some c => Connection.access_control c
  | None => None
  end.

(** The exception is an [HTTPException] with status 400 or 401. *)
Definition client_error (e : exn) : Prop :=
  exists detail, e = HTTPException 400 detail \/ e = HTTPException 401 detail.

(** The form create and update hand on once the source is loaded: the
    rewritten content and the manifest found by the loader. *)
Definition loaded_form `{!Collaborators Db} (frontmatter : json)
  (form_data : ToolForm.t) : ToolForm.t :=
  ToolForm.with_manifest frontmatter
    (ToolForm.with_content (replace_imports (ToolForm.content form_data))
       form_data).

(** What the handler makes of the answer of a table write inside its
    [try]: the record, or a 400 whose detail wraps the 400 raised for a
    missing record. *)
Definition answer_or_400 `{!Collaborators Db} {A} (what : string)
  (answer : option A) : result A :=
  match answer with
  | Some t => Ok t
  | None =>
      Raise (HTTPException 400
               (DEFAULT ERROR_MESSAGES
                  (str (HTTPException 400 (DEFAULT ERROR_MESSAGES what)))))
  end.

(** ** Further fixtures *)

Module Cases.

(** A tool whose stored source is empty, which the reference loader
    refuses. *)
Definition blank : ToolModel.t :=
  {| ToolModel.id := "blank"; ToolModel.user_id := "u1";
     ToolModel.name := "Blank"; ToolModel.content := "";
     ToolModel.specs := []; ToolModel.meta := [];
     ToolModel.access_control := None;
     ToolModel.updated_at := 0; ToolModel.created_at := 0 |}.

(** Two cached servers for the single connection of the busy
    configuration. *)
Definition stale_world : World.t Demo.table :=
  World.mk
    [ {| ToolServer.idx := 0; ToolServer.info := None |};
      {| ToolServer.idx := 1; ToolServer.info := None |} ]
    ∅ Demo.arcade_tools Demo.busy_config (Demo.table_of [Demo.calc]) 0 [] [].

(** An enabled toolkit with a member the broker's metadata does not
    have. *)
Definition ghost_kit : ToolKit.t :=
  {| ToolKit.enabled := true; ToolKit.toolkit := "Ghost";
     ToolKit.description := None;
     ToolKit.tools :=
       [ {| ToolKit.name := "Mail.Send" |};
         {| ToolKit.name := "Ghost.Tool" |} ] |}.

(** The reference collaborators, with a spec derivation, a [mkdir] and a
    broker of one's choice. *)
Definition collaborators_with
  (specs : PyModule.t -> result (list json))
  (dir : string -> result unit)
  (broker : list (AuthRequirement.t * string) -> AuthRequirement.t ->
            string -> result (option AuthorizationResponse.t)) :
  Collaborators Demo.table :=
  {| has_access := Demo.grants;
     has_permission := fun _ _ _ => false;
     replace_imports := fun content => content;
     load_tools_module_by_id := Demo.loader;
     get_tools_specs := specs;
     get_tool_servers_data := fun connections =>
       Ok (imap (fun i _ => {| ToolServer.idx := i; ToolServer.info := None |})
                connections);
     authorize := broker;
     time_now := fun n => 1700000000 + Z.of_nat n;
     mkdir := dir;
     ERROR_MESSAGES := @ERROR_MESSAGES _ Demo.collaborators;
     str_HTTPException := fun c d => d |}.

Definition no_specs : Collaborators Demo.table :=
  collaborators_with (fun _ => Raise (Exception "no callable found"))
    (fun _ => Ok tt) (fun _ _ _ => Ok (Some Demo.answer)).

Definition no_disk : Collaborators Demo.table :=
  collaborators_with (fun _ => Ok [])
    (fun _ => Raise (Exception "No space left on device"))
    (fun _ _ _ => Ok (Some Demo.answer)).

Definition no_broker : Collaborators Demo.table :=
  collaborators_with (fun _ => Ok []) (fun _ => Ok tt)
    (fun _ _ _ => Raise (Exception "Connection error.")).

(** The reference collaborators with a loader that raises on every
    call. *)
Definition no_loader : Collaborators Demo.table :=
  {| has_access := Demo.grants;
     has_permission := fun _ _ _ => false;
     replace_imports := fun content => content;
     load_tools_module_by_id := fun _ _ _ =>
       Raise (Exception "loader out of order");
     get_tools_specs := fun _ => Ok [];
     get_tool_servers_data := fun _ => Ok [];
     authorize := fun _ _ _ => Ok None;
     time_now := fun n => Z.of_nat n;
     mkdir := fun _ => Ok tt;
     ERROR_MESSAGES := @ERROR_MESSAGES _ Demo.collaborators;
     str_HTTPException := fun c d => d |}.

(** The requirement of the mail toolkit. *)
Definition mail_requirement : AuthRequirement.t :=
  {| AuthRequirement.provider_id := "google";
     AuthRequirement.provider_type := "oauth2";
     AuthRequirement.scopes := ["send"; "read"];
     AuthRequirement.id := Some "g1" |}.

End Cases.

(** * Properties *)

Create HintDb router.

#[global] Hint Unfold bind ret raise raise_http gets modify call try_except :
  router.
#[global] Hint Unfold Tools_get_tools Tools_get_tools_by_user_id
  Tools_get_tool_by_id Tools_insert_new_tool Tools_update_tool_by_id
  Tools_delete_tool_by_id Tools_get_tool_valves_by_id
  Tools_update_tool_valves_by_id Tools_get_user_valves_by_id_and_user_id
  Tools_update_user_valves_by_id_and_user_id load TOOLS_set TOOLS_get
  cached_or_loaded : router.

(** Unfolds the monad and the table calls, then computes. *)
Ltac run := autounfold with router in *; cbn beta iota zeta in *.

(** ** The reference instance at work *)

Example demo_list_u3 :
  map entry_id
    (match fst (get_tools Demo.u3 Demo.busy_world) with Ok l => l | Raise _ => [] end)
  = ["calc"; "server:0"; "arcade:1"].
Proof. vm_compute. reflexivity. Qed.

Example demo_list_root :
  map entry_id
    (match fst (get_tools Demo.root Demo.busy_world) with Ok l => l | Raise _ => [] end)
  = ["calc"; "notes"; "server:0"; "arcade:1"].
Proof. vm_compute. reflexivity. Qed.

Example demo_calls :
  World.broker_calls (snd (get_tools Demo.root Demo.busy_world))
  = [({| AuthRequirement.provider_id := "google";
         AuthRequirement.provider_type := "oauth2";
         AuthRequirement.scopes := ["send"; "read"];
         AuthRequirement.id := Some "g1" |}, "root")].
Proof. vm_compute. reflexivity. Qed.

Section RouterFacts.

Context {Db : Type} `{!Tools.Table Db} `{!Collaborators Db}.

Implicit Types (w : World.t Db) (user : UserModel.t) (id : string).

(** ** Reading the admin-scope valves *)

(** C10. For any caller and any id whose record is in the table, reading the
    admin-scope valves returns what the table holds for that id and changes
    nothing; neither the caller's role, nor ownership, nor the record's
    access control is consulted. *)
Theorem get_tools_valves_by_id_only_needs_record id user w t :
  Tools.get_tool_by_id (World.db w) id = Some t ->
  get_tools_valves_by_id id user w
  = (Ok (Tools.get_tool_valves_by_id (World.db w) id), w).
Proof.
  intros Hrec. unfold get_tools_valves_by_id. run.
  rewrite Hrec. reflexivity.
Qed.

(** ** Deleting *)

(** C3, as the code has it. When the record is there and the caller passes
    the write guard, the handler returns the boolean the table's delete
    returned, and the loaded-module cache loses the id exactly when that
    boolean is true. When the record is not there, the handler raises 401
    with the not-found message and leaves the state as it was. *)
Theorem delete_tools_by_id_outcomes id user w :
  (forall t,
      Tools.get_tool_by_id (World.db w) id = Some t ->
      write_denied t user = false ->
      delete_tools_by_id id user w
      = (Ok (fst (Tools.delete_tool_by_id (World.db w) id)),
         after_delete id (fst (Tools.delete_tool_by_id (World.db w) id))
           (snd (Tools.delete_tool_by_id (World.db w) id)) w))
  /\ (Tools.get_tool_by_id (World.db w) id = None ->
      delete_tools_by_id id user w
      = (Raise (HTTPException 401 (NOT_FOUND ERROR_MESSAGES)), w)).
Proof.
  split.
  - intros t Hrec Hguard. unfold delete_tools_by_id, after_delete. run.
    rewrite Hrec, Hguard.
    destruct (Tools.delete_tool_by_id (World.db w) id) as [[|] d];
      reflexivity.
  - intros Hrec. unfold delete_tools_by_id. run.
    rewrite Hrec. reflexivity.
Qed.

(** ** Status codes of the refusals *)

(** A caller who may not read an existing record gets no exception from
    GET /id/{id}: the handler ends without a value. *)
Lemma get_tools_by_id_unreadable id user w t :
  Tools.get_tool_by_id (World.db w) id = Some t ->
  UserModel.role user <> "admin" ->
  ToolModel.user_id t <> UserModel.id user ->
  has_access (UserModel.id user) "read" (ToolModel.access_control t) = false ->
  get_tools_by_id id user w = (Ok None, w).
Proof.
  intros Hrec Hrole Hown Hacc. unfold get_tools_by_id. run.
  rewrite Hrec, Hacc.
  apply String.eqb_neq in Hrole, Hown. rewrite Hrole, Hown. reflexivity.
Qed.

(** A caller stopped by the write guard of the valves update gets 400. *)
Lemma update_tools_valves_by_id_denied id form_data user w t :
  Tools.get_tool_by_id (World.db w) id = Some t ->
  write_denied t user = true ->
  update_tools_valves_by_id id form_data user w
  = (Raise (HTTPException 400 (ACCESS_PROHIBITED ERROR_MESSAGES)), w).
Proof.
  intros Hrec Hguard. unfold update_tools_valves_by_id. run.
  rewrite Hrec, Hguard. reflexivity.
Qed.

(** The same guard in update and delete raises 401. *)
Lemma update_tools_by_id_denied id form_data user w t :
  Tools.get_tool_by_id (World.db w) id = Some t ->
  write_denied t user = true ->
  update_tools_by_id id form_data user w
  = (Raise (HTTPException 401 (UNAUTHORIZED ERROR_MESSAGES)), w).
Proof.
  intros Hrec Hguard. unfold update_tools_by_id. run.
  rewrite Hrec, Hguard. reflexivity.
Qed.

Lemma delete_tools_by_id_denied id user w t :
  Tools.get_tool_by_id (World.db w) id = Some t ->
  write_denied t user = true ->
  delete_tools_by_id id user w
  = (Raise (HTTPException 401 (UNAUTHORIZED ERROR_MESSAGES)), w).
Proof.
  intros Hrec Hguard. unfold delete_tools_by_id. run.
  rewrite Hrec, Hguard. reflexivity.
Qed.

(** ** Creating *)

(** What create does once the guards are passed and the id is free, up to
    the insert. *)
Lemma TOOLS_set_get {A} id m (k : PyModule.t -> M Db A) w :
  (TOOLS_set id m ;;; tools_module <- TOOLS_get id ;; k tools_module) w
  = k m (World.set_TOOLS (<[id := m]> (World.TOOLS w)) w).
Proof. run. cbn. rewrite lookup_insert_eq. reflexivity. Qed.

(** C2. For a caller allowed to create: an id that is not an identifier is
    refused with 400 and the state is left as it was; an identifier whose
    lowercased form is already in the table is refused with 400 (id taken)
    and the state is left as it was; whatever the outcome, the only write
    create can issue is one insert, and the form it inserts carries the
    lowercased id. In particular ["9bad!"] is not an identifier, and
    ["Calc"] is one and is looked up and inserted as ["calc"]. *)
Theorem create_new_tools_id_checks form_data user w :
  create_denied user (AppConfig.USER_PERMISSIONS (World.config w)) = false ->
  (PyStr.isidentifier (ToolForm.id form_data) = false ->
   create_new_tools form_data user w
   = (Raise (HTTPException 400
        "Only alphanumeric characters and underscores are allowed in the id"),
      w))
  /\ (PyStr.isidentifier (ToolForm.id form_data) = true ->
      is_Some (Tools.get_tool_by_id (World.db w)
                 (PyStr.lower (ToolForm.id form_data))) ->
      create_new_tools form_data user w
      = (Raise (HTTPException 400 (ID_TAKEN ERROR_MESSAGES)), w))
  /\ (forall r w',
        create_new_tools form_data user w = (r, w') ->
        (World.db w' = World.db w /\ World.db_writes w' = World.db_writes w)
        \/ exists f specs,
            ToolForm.id f = PyStr.lower (ToolForm.id form_data)
            /\ World.db w'
               = snd (Tools.insert_new_tool (World.db w) (UserModel.id user)
                        f specs)
            /\ World.db_writes w'
               = World.db_writes w
                 ++ [W_insert_new_tool (UserModel.id user) f specs])
  /\ (forall m frontmatter specs,
        PyStr.isidentifier (ToolForm.id form_data) = true ->
        Tools.get_tool_by_id (World.db w)
          (PyStr.lower (ToolForm.id form_data)) = None ->
        load_tools_module_by_id (World.db w)
          (PyStr.lower (ToolForm.id form_data))
          (Some (replace_imports (ToolForm.content form_data)))
        = Ok (m, frontmatter) ->
        get_tools_specs m = Ok specs ->
        exists f,
          ToolForm.id f = PyStr.lower (ToolForm.id form_data)
          /\ World.db_writes (snd (create_new_tools form_data user w))
             = World.db_writes w
               ++ [W_insert_new_tool (UserModel.id user) f specs])
  /\ PyStr.isidentifier "9bad!" = false
  /\ PyStr.isidentifier "Calc" = true
  /\ PyStr.lower "Calc" = "calc".
Proof.
  intros Hperm. repeat split.
  - intros Hid. unfold create_new_tools. run.
    rewrite Hperm, Hid. reflexivity.
  - intros Hid [t Hrec]. unfold create_new_tools. run.
    rewrite Hperm, Hid. cbn. rewrite Hrec. reflexivity.
  - intros r w' Hrun. unfold create_new_tools in Hrun.
    unfold bind at 1, gets at 1 in Hrun. rewrite Hperm in Hrun.
    destruct (PyStr.isidentifier (ToolForm.id form_data));
      [| run; cbn in Hrun; left; by simplify_eq].
    unfold negb, bind at 1, Tools_get_tool_by_id, gets in Hrun.
    cbn [ToolForm.id ToolForm.with_id] in Hrun.
    destruct (Tools.get_tool_by_id _ _);
      [run; cbn in Hrun; left; by simplify_eq |].
    unfold try_except, bind at 1, load in Hrun.
    cbn [ToolForm.id ToolForm.with_id ToolForm.with_content ToolForm.content
         ToolForm.with_manifest] in Hrun.
    destruct (load_tools_module_by_id _ _ _) as [[m fm]|e];
      [| run; cbn in Hrun; left; by simplify_eq].
    rewrite TOOLS_set_get in Hrun.
    unfold bind at 1, call at 1 in Hrun. cbn [fst snd] in Hrun.
    destruct (get_tools_specs m) as [specs|e];
      [| run; cbn in Hrun; left; by simplify_eq].
    right. eexists _, specs. run. cbn in Hrun.
    destruct (Tools.insert_new_tool _ _ _ _) as [t d] eqn:Hins.
    cbn in Hrun.
    split; [| split].
    2: { destruct (mkdir _); [destruct t|]; simplify_eq; cbn;
         rewrite Hins; reflexivity. }
    2: { destruct (mkdir _); [destruct t|]; simplify_eq; cbn; reflexivity. }
    reflexivity.
  - intros m fm specs Hid Hrec Hload Hspecs.
    eexists. split; [| unfold create_new_tools].
    2: { unfold bind at 1, gets at 1. rewrite Hperm, Hid.
         unfold negb, bind at 1, Tools_get_tool_by_id, gets.
         cbn [ToolForm.id ToolForm.with_id]. rewrite Hrec.
         unfold try_except, bind at 1, load.
         cbn [ToolForm.id ToolForm.with_id ToolForm.with_content
              ToolForm.content ToolForm.with_manifest].
         rewrite Hload, TOOLS_set_get.
         unfold bind at 1, call at 1. cbn [fst snd]. rewrite Hspecs.
         run. cbn.
         destruct (Tools.insert_new_tool _ _ _ _) as [t d].
         destruct (mkdir _); [destruct t|]; cbn; reflexivity. }
    reflexivity.
Qed.

(** ** Source that fails to load *)

Lemma same_table_refl w : same_table w w.
Proof. split; reflexivity. Qed.

Lemma same_table_set_TOOLS v w : same_table w (World.set_TOOLS v w).
Proof. split; reflexivity. Qed.

#[local] Hint Resolve same_table_refl same_table_set_TOOLS : core.

(** The body of the try block of update, up to the derivation of the
    specs, when the source fails. *)
Lemma update_tools_by_id_source_fails id form_data user w t e :
  Tools.get_tool_by_id (World.db w) id = Some t ->
  write_denied t user = false ->
  source_fails (World.db w) id (replace_imports (ToolForm.content form_data)) e ->
  exists w',
    update_tools_by_id id form_data user w
    = (Raise (HTTPException 400 (DEFAULT ERROR_MESSAGES (str e))), w')
    /\ same_table w w'.
Proof.
  intros Hrec Hguard Hfail. unfold update_tools_by_id.
  unfold bind at 1, Tools_get_tool_by_id, gets. rewrite Hrec, Hguard.
  unfold try_except, bind at 1, load.
  cbn [ToolForm.with_content ToolForm.content].
  destruct Hfail as [Hload | (m & fm & Hload & Hspecs)]; rewrite Hload.
  - eexists. split; [reflexivity | auto].
  - rewrite TOOLS_set_get. unfold bind at 1, call at 1. cbn [fst snd].
    rewrite Hspecs. eexists. split; [reflexivity | auto].
Qed.

Lemma create_new_tools_source_fails form_data user w e :
  create_denied user (AppConfig.USER_PERMISSIONS (World.config w)) = false ->
  PyStr.isidentifier (ToolForm.id form_data) = true ->
  Tools.get_tool_by_id (World.db w) (PyStr.lower (ToolForm.id form_data))
  = None ->
  source_fails (World.db w) (PyStr.lower (ToolForm.id form_data))
    (replace_imports (ToolForm.content form_data)) e ->
  exists w',
    create_new_tools form_data user w
    = (Raise (HTTPException 400 (DEFAULT ERROR_MESSAGES (str e))), w')
    /\ same_table w w'.
Proof.
  intros Hperm Hid Hrec Hfail. unfold create_new_tools.
  unfold bind at 1, gets at 1. rewrite Hperm, Hid.
  unfold negb, bind at 1, Tools_get_tool_by_id, gets.
  cbn [ToolForm.id ToolForm.with_id]. rewrite Hrec.
  unfold try_except, bind at 1, load.
  cbn [ToolForm.id ToolForm.with_id ToolForm.with_content ToolForm.content
       ToolForm.with_manifest].
  destruct Hfail as [Hload | (m & fm & Hload & Hspecs)]; rewrite Hload.
  - eexists. split; [reflexivity | auto].
  - rewrite TOOLS_set_get. unfold bind at 1, call at 1. cbn [fst snd].
    rewrite Hspecs. eexists. split; [reflexivity | auto].
Qed.

(** Whatever the guards say, a request whose source fails leaves the table
    alone. *)
Lemma update_tools_by_id_source_fails_same_table id form_data user w e :
  source_fails (World.db w) id (replace_imports (ToolForm.content form_data)) e ->
  same_table w (snd (update_tools_by_id id form_data user w)).
Proof.
  intros Hfail.
  destruct (Tools.get_tool_by_id (World.db w) id) as [t|] eqn:Hrec.
  - destruct (write_denied t user) eqn:Hguard.
    + by rewrite (update_tools_by_id_denied id form_data user w t).
    + destruct (update_tools_by_id_source_fails id form_data user w t e)
        as (w' & -> & Hsame); done.
  - unfold update_tools_by_id. run. rewrite Hrec. cbn. done.
Qed.

Lemma create_new_tools_source_fails_same_table form_data user w e :
  source_fails (World.db w) (PyStr.lower (ToolForm.id form_data))
    (replace_imports (ToolForm.content form_data)) e ->
  same_table w (snd (create_new_tools form_data user w)).
Proof.
  intros Hfail.
  destruct (create_denied user (AppConfig.USER_PERMISSIONS (World.config w)))
    eqn:Hperm.
  { unfold create_new_tools. run. rewrite Hperm. cbn. done. }
  destruct (PyStr.isidentifier (ToolForm.id form_data)) eqn:Hid.
  2: { unfold create_new_tools. run. rewrite Hperm, Hid. cbn. done. }
  destruct (Tools.get_tool_by_id (World.db w)
              (PyStr.lower (ToolForm.id form_data))) as [t|] eqn:Hrec.
  { unfold create_new_tools. run. rewrite Hperm, Hid. cbn. rewrite Hrec.
    cbn. done. }
  destruct (create_new_tools_source_fails form_data user w e)
    as (w' & -> & Hsame); done.
Qed.

(** C5. An update of an existing record by a caller who passes the write
    guard, and a create by a permitted caller with a fresh identifier, whose
    source fails to load or validate with [e], raise 400 with the detail
    built from [str(e)]. And any update or create whose source fails, also
    one stopped by a guard before the source is looked at, leaves the table
    as it was and issues no write. *)
Theorem source_failure_is_400_without_write form_data user w e :
  (forall id t,
      Tools.get_tool_by_id (World.db w) id = Some t ->
      write_denied t user = false ->
      source_fails (World.db w) id
        (replace_imports (ToolForm.content form_data)) e ->
      exists w',
        update_tools_by_id id form_data user w
        = (Raise (HTTPException 400 (DEFAULT ERROR_MESSAGES (str e))), w')
        /\ World.db w' = World.db w
        /\ World.db_writes w' = World.db_writes w)
  /\ (create_denied user (AppConfig.USER_PERMISSIONS (World.config w)) = false ->
      PyStr.isidentifier (ToolForm.id form_data) = true ->
      Tools.get_tool_by_id (World.db w) (PyStr.lower (ToolForm.id form_data))
      = None ->
      source_fails (World.db w) (PyStr.lower (ToolForm.id form_data))
        (replace_imports (ToolForm.content form_data)) e ->
      exists w',
        create_new_tools form_data user w
        = (Raise (HTTPException 400 (DEFAULT ERROR_MESSAGES (str e))), w')
        /\ World.db w' = World.db w
        /\ World.db_writes w' = World.db_writes w)
  /\ (forall id,
        source_fails (World.db w) id
          (replace_imports (ToolForm.content form_data)) e ->
        same_table w (snd (update_tools_by_id id form_data user w)))
  /\ (source_fails (World.db w) (PyStr.lower (ToolForm.id form_data))
        (replace_imports (ToolForm.content form_data)) e ->
      same_table w (snd (create_new_tools form_data user w))).
Proof.
  split; [|split; [|split]].
  - intros id t Hrec Hguard Hfail.
    destruct (update_tools_by_id_source_fails id form_data user w t e)
      as (w' & Hrun & Hdb & Hlog); eauto.
  - intros Hperm Hid Hrec Hfail.
    destruct (create_new_tools_source_fails form_data user w e)
      as (w' & Hrun & Hdb & Hlog); eauto.
  - intros id. apply update_tools_by_id_source_fails_same_table.
  - apply create_new_tools_source_fails_same_table.
Qed.

(** ** Setting valves *)

Lemma drop_none_idempotent (form_data : dict) :
  drop_none (drop_none form_data) = drop_none form_data.
Proof.
  unfold drop_none. induction form_data as [|[k v] rest IH]; [reflexivity|].
  cbn. destruct (is_none v) eqn:Hv; cbn; [exact IH|].
  rewrite Hv. cbn. f_equal. exact IH.
Qed.

Lemma drop_none_no_null (form_data : dict) :
  Forall (fun kv => snd kv <> JNone) (drop_none form_data).
Proof.
  unfold drop_none. induction form_data as [|[k v] rest IH]; [constructor|].
  cbn. destruct v; cbn; try (constructor; [discriminate | exact IH]).
  exact IH.
Qed.

(** The payload reaches the valves handlers only through [drop_none]. *)
Lemma update_tools_valves_by_id_drop_none id (f1 f2 : dict) user :
  drop_none f1 = drop_none f2 ->
  update_tools_valves_by_id id f1 user = update_tools_valves_by_id id f2 user.
Proof. intros Heq. unfold update_tools_valves_by_id. rewrite Heq. reflexivity. Qed.

Lemma update_tools_user_valves_by_id_drop_none id (f1 f2 : dict) user :
  drop_none f1 = drop_none f2 ->
  update_tools_user_valves_by_id id f1 user
  = update_tools_user_valves_by_id id f2 user.
Proof.
  intros Heq. unfold update_tools_user_valves_by_id. rewrite Heq. reflexivity.
Qed.

(** Fetching the module touches the cache of loaded modules only. *)
Lemma cached_or_loaded_same_table id w r w1 :
  cached_or_loaded id w = (r, w1) -> same_table w w1.
Proof.
  unfold cached_or_loaded. run. intros Hrun.
  destruct (World.TOOLS w !! id); [by simplify_eq|].
  destruct (load_tools_module_by_id _ _ _) as [[m fm]|e]; simplify_eq;
    split; reflexivity.
Qed.

(** C9. In both valves updates (admin scope and per user) the payload with
    its null-valued keys left out, [drop_none form_data], has no null value
    left and gives the same run as the payload itself: same result, same
    final state, hence the same validation, the same write and the same
    echo. And when the handler has reached the class ([Valves], resp.
    [UserValves]) and its constructor rejects the remaining fields with
    [e], the handler raises 400 with the detail built from [str(e)], the
    table is as before and no write was issued. When the constructor
    accepts the remaining fields, the handler issues exactly one write,
    of the dump of the validated instance (under the caller's id for the
    per-user valves), and returns that dump. *)
Theorem valves_update_null_is_omitted id (form_data : dict) user w :
  Forall (fun kv => snd kv <> JNone) (drop_none form_data)
  /\ update_tools_valves_by_id id form_data user w
     = update_tools_valves_by_id id (drop_none form_data) user w
  /\ update_tools_user_valves_by_id id form_data user w
     = update_tools_user_valves_by_id id (drop_none form_data) user w
  /\ (forall t m w1 Valves e,
        Tools.get_tool_by_id (World.db w) id = Some t ->
        write_denied t user = false ->
        cached_or_loaded id w = (Ok m, w1) ->
        PyModule.Valves m = Some Valves ->
        ValvesClass.init Valves (drop_none form_data) = Raise e ->
        update_tools_valves_by_id id form_data user w
        = (Raise (HTTPException 400 (DEFAULT ERROR_MESSAGES (str e))), w1)
        /\ World.db w1 = World.db w
        /\ World.db_writes w1 = World.db_writes w)
  /\ (forall t m w1 UserValves e,
        Tools.get_tool_by_id (World.db w) id = Some t ->
        cached_or_loaded id w = (Ok m, w1) ->
        PyModule.UserValves m = Some UserValves ->
        ValvesClass.init UserValves (drop_none form_data) = Raise e ->
        update_tools_user_valves_by_id id form_data user w
        = (Raise (HTTPException 400 (DEFAULT ERROR_MESSAGES (str e))), w1)
        /\ World.db w1 = World.db w
        /\ World.db_writes w1 = World.db_writes w)
  /\ (forall t m w1 Valves valves,
        Tools.get_tool_by_id (World.db w) id = Some t ->
        write_denied t user = false ->
        cached_or_loaded id w = (Ok m, w1) ->
        PyModule.Valves m = Some Valves ->
        ValvesClass.init Valves (drop_none form_data) = Ok valves ->
        update_tools_valves_by_id id form_data user w
        = (Ok (BaseModel.model_dump valves),
           World.write
             (snd (Tools.update_tool_valves_by_id (World.db w1) id
                     (BaseModel.model_dump valves)))
             (W_update_tool_valves_by_id id (BaseModel.model_dump valves))
             w1)
        /\ World.db_writes w1 = World.db_writes w)
  /\ (forall t m w1 UserValves valves,
        Tools.get_tool_by_id (World.db w) id = Some t ->
        cached_or_loaded id w = (Ok m, w1) ->
        PyModule.UserValves m = Some UserValves ->
        ValvesClass.init UserValves (drop_none form_data) = Ok valves ->
        update_tools_user_valves_by_id id form_data user w
        = (Ok (BaseModel.model_dump valves),
           World.write
             (snd (Tools.update_user_valves_by_id_and_user_id (World.db w1)
                     id (UserModel.id user) (BaseModel.model_dump valves)))
             (W_update_user_valves_by_id_and_user_id id (UserModel.id user)
                (BaseModel.model_dump valves))
             w1)
        /\ World.db_writes w1 = World.db_writes w).
Proof.
  split; [apply drop_none_no_null|].
  split.
  { rewrite (update_tools_valves_by_id_drop_none id form_data
               (drop_none form_data));
      [reflexivity | symmetry; apply drop_none_idempotent]. }
  split.
  { rewrite (update_tools_user_valves_by_id_drop_none id form_data
               (drop_none form_data));
      [reflexivity | symmetry; apply drop_none_idempotent]. }
  split.
  - intros t m w1 V e Hrec Hguard Hmod HV Hinit.
    split; [| exact (cached_or_loaded_same_table _ _ _ _ Hmod)].
    unfold update_tools_valves_by_id.
    unfold bind at 1, Tools_get_tool_by_id, gets. rewrite Hrec, Hguard.
    unfold bind at 1. rewrite Hmod, HV.
    unfold try_except, bind at 1, call at 1. rewrite Hinit. reflexivity.
  - split; [|split].
    + intros t m w1 V e Hrec Hmod HV Hinit.
      split; [| exact (cached_or_loaded_same_table _ _ _ _ Hmod)].
      unfold update_tools_user_valves_by_id.
      unfold bind at 1, Tools_get_tool_by_id, gets. rewrite Hrec.
      unfold bind at 1. rewrite Hmod, HV.
      unfold try_except, bind at 1, call at 1. rewrite Hinit. reflexivity.
    + intros t m w1 V valves Hrec Hguard Hmod HV Hinit.
      split; [| exact (proj2 (cached_or_loaded_same_table _ _ _ _ Hmod))].
      unfold update_tools_valves_by_id.
      unfold bind at 1, Tools_get_tool_by_id, gets. rewrite Hrec, Hguard.
      unfold bind at 1. rewrite Hmod, HV.
      unfold try_except, bind at 1, call at 1. rewrite Hinit. run.
      by destruct (Tools.update_tool_valves_by_id _ _ _).
    + intros t m w1 V valves Hrec Hmod HV Hinit.
      split; [| exact (proj2 (cached_or_loaded_same_table _ _ _ _ Hmod))].
      unfold update_tools_user_valves_by_id.
      unfold bind at 1, Tools_get_tool_by_id, gets. rewrite Hrec.
      unfold bind at 1. rewrite Hmod, HV.
      unfold try_except, bind at 1, call at 1. rewrite Hinit. run.
      by destruct (Tools.update_user_valves_by_id_and_user_id _ _ _ _).
Qed.

(** ** The catalog listing: the two loops *)

Lemma same_app_refl w : same_app w w.
Proof. repeat split. Qed.

Lemma same_app_trans w1 w2 w3 :
  same_app w1 w2 -> same_app w2 w3 -> same_app w1 w3.
Proof.
  unfold same_app. intros (?&?&?&?&?&?) (?&?&?&?&?&?).
  repeat split; congruence.
Qed.

Lemma same_app_tick w : same_app w (World.tick w).
Proof. repeat split. Qed.

Lemma same_app_called c w : same_app w (World.called c w).
Proof. repeat split. Qed.

Lemma tool_server_response_ok idx server w r w' :
  tool_server_response idx server w = (Ok r, w') ->
  ToolUserResponse.id r = "server:" +:+ pretty (ToolServer.idx server)
  /\ same_app w w'
  /\ World.broker_calls w' = World.broker_calls w.
Proof.
  unfold tool_server_response, now. run. intros Hrun.
  destruct (_ !! idx); simplify_eq. repeat split.
Qed.

Lemma append_tool_servers_ok servers : forall idx tools w out w',
  append_tool_servers idx servers tools w = (Ok out, w') ->
  exists rs,
    out = tools ++ map Synth rs
    /\ map ToolUserResponse.id rs
       = map (fun s => "server:" +:+ pretty (ToolServer.idx s)) servers
    /\ same_app w w'
    /\ World.broker_calls w' = World.broker_calls w.
Proof.
  induction servers as [|server rest IH]; intros idx tools w out w' Hrun.
  - cbn in Hrun. unfold ret in Hrun. simplify_eq. exists [].
    rewrite app_nil_r. repeat split.
  - cbn [append_tool_servers] in Hrun. unfold bind at 1 in Hrun.
    destruct (tool_server_response idx server w) as [[r|e] w1] eqn:Hone;
      [|discriminate].
    apply tool_server_response_ok in Hone as (Hid & Hsame & Hcalls).
    apply IH in Hrun as (rs & -> & Hids & Hsame' & Hcalls').
    exists (r :: rs). cbn [map]. rewrite <- app_assoc. cbn [app].
    repeat split; [by rewrite Hid, Hids | | | | | | | congruence];
      destruct Hsame as (?&?&?&?&?&?), Hsame' as (?&?&?&?&?&?); congruence.
Qed.

(** *** The scan over the member tools *)

Lemma scan_tool_ok mapper tool v v' :
  scan_tool mapper tool v = Ok v' ->
  v' = match member_authorization mapper tool with
       | Some auth => absorb v auth
       | None => v
       end.
Proof.
  unfold scan_tool, member_authorization. intros Hscan.
  destruct (mapper !! ToolKit.name tool) as [arcade_tool|]; [|discriminate].
  cbn. destruct (ArcadeTool.requirements arcade_tool) as [req|]; cbn;
    [|congruence].
  destruct (ArcadeTool.authorization req) as [auth|]; cbn; [|congruence].
  injection Hscan as <-. unfold absorb. f_equal.
  destruct (oauth2_scopes auth); [|reflexivity].
  cbn. by rewrite (right_id_L ∅ (∪)).
Qed.

Lemma scan_tools_ok mapper tools : forall v v',
  scan_tools mapper tools v = Ok v' ->
  v' = foldl absorb v (omap (member_authorization mapper) tools).
Proof.
  induction tools as [|tool rest IH]; intros v v' Hscan.
  - cbn in *. congruence.
  - cbn [scan_tools] in Hscan.
    destruct (scan_tool mapper tool v) as [v1|] eqn:Hone; [|discriminate].
    apply scan_tool_ok in Hone. apply IH in Hscan. subst v1 v'.
    cbn [omap list_omap]. destruct (member_authorization mapper tool);
      reflexivity.
Qed.

Lemma foldl_absorb_scopes auths : forall v,
  all_scopes (foldl absorb v auths) = all_scopes v ∪ declared_scopes auths.
Proof.
  unfold declared_scopes.
  induction auths as [|auth rest IH]; intros v; cbn.
  - by rewrite (right_id_L ∅ (∪)).
  - rewrite IH. cbn. by rewrite (assoc_L (∪)).
Qed.

Lemma foldl_absorb_id auths : forall v,
  auth_id (foldl absorb v auths)
  = foldl PyStr.py_or (auth_id v) (map Authorization.id auths).
Proof. induction auths as [|a rest IH]; intros v; cbn; [done|by rewrite IH]. Qed.

Lemma foldl_absorb_provider_id auths : forall v,
  auth_provider_id (foldl absorb v auths)
  = foldl PyStr.py_or (auth_provider_id v)
      (map Authorization.provider_id auths).
Proof. induction auths as [|a rest IH]; intros v; cbn; [done|by rewrite IH]. Qed.

Lemma foldl_absorb_provider_type auths : forall v,
  auth_provider_type (foldl absorb v auths)
  = foldl PyStr.py_or (auth_provider_type v)
      (map Authorization.provider_type auths).
Proof. induction auths as [|a rest IH]; intros v; cbn; [done|by rewrite IH]. Qed.

(** The chain of [or]s keeps the first truthy value. *)
Lemma foldl_py_or_first values : forall a,
  non_empty (foldl PyStr.py_or a values) = first_non_empty (a :: values).
Proof.
  induction values as [|b rest IH]; intros a.
  - cbn. unfold non_empty. destruct (PyStr.truthy a); reflexivity.
  - cbn [foldl]. rewrite IH. cbn. unfold PyStr.py_or.
    destruct (PyStr.truthy a) eqn:Ha; [rewrite Ha|]; reflexivity.
Qed.

Lemma foldl_py_or_None values :
  non_empty (foldl PyStr.py_or None values) = first_non_empty values.
Proof. by rewrite foldl_py_or_first. Qed.

Lemma auth_requirement_of_non_empty v :
  auth_requirement_of v
  = match non_empty (auth_provider_id v), non_empty (auth_provider_type v) with
    | Some provider_id, Some provider_type =>
        Some {| AuthRequirement.provider_id := provider_id;
                AuthRequirement.provider_type := provider_type;
                AuthRequirement.scopes := elements (all_scopes v);
                AuthRequirement.id := non_empty (auth_id v) |}
    | _, _ => None
    end.
Proof.
  unfold auth_requirement_of, non_empty.
  destruct (auth_provider_id v) as [p|], (auth_provider_type v) as [t|];
    cbn; try reflexivity.
  - destruct (negb (p =? "")%string), (negb (t =? "")%string); reflexivity.
  - destruct (negb (p =? "")%string); reflexivity.
Qed.

(** The requirement the code builds is the prescribed one. *)
Lemma auth_requirement_of_prescribed mapper tool_kit v :
  scan_tools mapper (ToolKit.tools tool_kit) auth_vars_init = Ok v ->
  auth_requirement_of v = prescribed_requirement mapper tool_kit.
Proof.
  intros Hscan. apply scan_tools_ok in Hscan. subst v.
  rewrite auth_requirement_of_non_empty.
  rewrite foldl_absorb_scopes, foldl_absorb_id, foldl_absorb_provider_id,
    foldl_absorb_provider_type.
  cbn [auth_vars_init all_scopes auth_id auth_provider_id auth_provider_type].
  rewrite !foldl_py_or_None, (left_id_L ∅ (∪)). reflexivity.
Qed.

(** *** One toolkit *)

Lemma arcade_response_auth_state idx tool_kit ans t1 t2 :
  shown_auth_state (arcade_response idx tool_kit ans t1 t2) = auth_state ans.
Proof. destruct ans; reflexivity. Qed.

(** The run for one toolkit, given the scan and the broker's answer. *)
Lemma tool_kit_response_run mapper user idx tool_kit w v ans :
  scan_tools mapper (ToolKit.tools tool_kit) auth_vars_init = Ok v ->
  broker_answer (World.broker_calls w) (UserModel.id user)
    (auth_requirement_of v) = Ok ans ->
  exists w',
    tool_kit_response mapper user idx tool_kit w
    = (Ok (arcade_response idx tool_kit ans
             (time_now (World.clock w)) (time_now (S (World.clock w)))), w')
    /\ same_app w w'.
Proof.
  intros Hscan Hans. unfold tool_kit_response.
  unfold bind at 1, call at 1. rewrite Hscan.
  unfold broker_answer in Hans.
  destruct (auth_requirement_of v) as [req|].
  - unfold bind at 1, client_auth_authorize. rewrite Hans.
    eexists. split; [reflexivity | repeat split].
  - injection Hans as <-. eexists. split; [reflexivity | repeat split].
Qed.

Lemma tool_kit_response_calls mapper user idx tool_kit w v :
  scan_tools mapper (ToolKit.tools tool_kit) auth_vars_init = Ok v ->
  World.broker_calls (snd (tool_kit_response mapper user idx tool_kit w))
  = World.broker_calls w ++ calls_of mapper (UserModel.id user) tool_kit.
Proof.
  intros Hscan. unfold tool_kit_response, calls_of.
  unfold bind at 1, call at 1. rewrite Hscan.
  rewrite <- (auth_requirement_of_prescribed _ _ _ Hscan).
  destruct (auth_requirement_of v) as [req|].
  - unfold bind at 1, client_auth_authorize.
    destruct (authorize _ _ _) as [ans|e]; reflexivity.
  - cbn. by rewrite app_nil_r.
Qed.

Lemma tool_kit_response_ok mapper user idx tool_kit w r w' :
  tool_kit_response mapper user idx tool_kit w = (Ok r, w') ->
  exists ans,
    broker_answer (World.broker_calls w) (UserModel.id user)
      (prescribed_requirement mapper tool_kit) = Ok ans
    /\ shown_auth_state r = auth_state ans
    /\ ToolUserResponse.id r = "arcade:" +:+ pretty idx
    /\ same_app w w'
    /\ World.broker_calls w'
       = World.broker_calls w ++ calls_of mapper (UserModel.id user) tool_kit.
Proof.
  intros Hrun.
  destruct (scan_tools mapper (ToolKit.tools tool_kit) auth_vars_init)
    as [v|e] eqn:Hscan.
  2: { unfold tool_kit_response, bind at 1, call at 1 in Hrun.
       rewrite Hscan in Hrun. discriminate. }
  pose proof (tool_kit_response_calls mapper user idx tool_kit w v Hscan)
    as Hcalls.
  rewrite Hrun in Hcalls. cbn [snd] in Hcalls.
  rewrite <- (auth_requirement_of_prescribed _ _ _ Hscan).
  destruct (broker_answer (World.broker_calls w) (UserModel.id user)
              (auth_requirement_of v)) as [ans|e] eqn:Hans.
  - destruct (tool_kit_response_run mapper user idx tool_kit w v ans Hscan Hans)
      as (w1 & Hrun' & Hsame).
    rewrite Hrun in Hrun'. injection Hrun' as -> ->.
    exists ans. split; [done|]. split; [apply arcade_response_auth_state|].
    split; [done|]. split; assumption.
  - exfalso. unfold tool_kit_response, bind at 1, call at 1 in Hrun.
    rewrite Hscan in Hrun. unfold broker_answer in Hans.
    destruct (auth_requirement_of v) as [req|]; [|discriminate].
    unfold bind at 1, client_auth_authorize in Hrun. rewrite Hans in Hrun.
    discriminate.
Qed.

Lemma append_tool_kits_ok mapper user tool_kits : forall idx tools w out w',
  append_tool_kits mapper user idx tool_kits tools w = (Ok out, w') ->
  exists rs,
    out = tools ++ map Synth rs
    /\ map ToolUserResponse.id rs = arcade_ids idx tool_kits
    /\ map shown_auth_state rs
       = map auth_state
           (broker_answers mapper (UserModel.id user) (World.broker_calls w)
              tool_kits)
    /\ same_app w w'
    /\ World.broker_calls w'
       = World.broker_calls w
         ++ prescribed_calls mapper (UserModel.id user) tool_kits.
Proof.
  induction tool_kits as [|tool_kit rest IH]; intros idx tools w out w' Hrun.
  - cbn in Hrun. unfold ret in Hrun. simplify_eq. exists [].
    rewrite !app_nil_r. split; [done|]. split; [done|]. split; [done|].
    split; [apply same_app_refl | done].
  - cbn [append_tool_kits arcade_ids prescribed_calls omap list_omap
         broker_answers] in *.
    destruct (ToolKit.enabled tool_kit).
    + unfold bind at 1 in Hrun.
      destruct (tool_kit_response mapper user idx tool_kit w)
        as [[r|e] w1] eqn:Hone; [|discriminate].
      apply tool_kit_response_ok in Hone
        as (ans & Hans & Hshown & Hid & Hsame & Hcalls).
      apply IH in Hrun as (rs & -> & Hids & Hauth & Hsame' & Hcalls').
      exists (r :: rs). cbn [map]. rewrite <- app_assoc. cbn [app].
      split; [done|]. split; [by rewrite Hid, Hids|].
      split; [rewrite Hans; cbn [map]; by rewrite Hshown, Hauth, Hcalls|].
      split; [eapply same_app_trans; eauto|].
      rewrite Hcalls', Hcalls, <- app_assoc. f_equal.
      unfold calls_of, prescribed_calls.
      destruct (prescribed_requirement mapper tool_kit); reflexivity.
    + apply IH in Hrun as (rs & -> & Hids & Hauth & Hsame' & Hcalls').
      exists rs. done.
Qed.

(** *** The whole merge *)

Lemma merged_tools_ok user w merged w' :
  merged_tools user w = (Ok merged, w') ->
  exists servers kits,
    merged = map Stored (Tools.get_tools (World.db w))
             ++ map Synth servers ++ map Synth kits
    /\ map ToolUserResponse.id servers
       = map (fun s => "server:" +:+ pretty (ToolServer.idx s))
           (World.TOOL_SERVERS w')
    /\ map ToolUserResponse.id kits
       = arcade_ids 0 (AppConfig.ARCADE_TOOLS_CONFIG (World.config w))
    /\ map shown_auth_state kits
       = map auth_state
           (broker_answers (arcade_tool_mapper (World.ARCADE_TOOLS w))
              (UserModel.id user) (World.broker_calls w)
              (AppConfig.ARCADE_TOOLS_CONFIG (World.config w)))
    /\ World.broker_calls w'
       = World.broker_calls w
         ++ prescribed_calls (arcade_tool_mapper (World.ARCADE_TOOLS w))
              (UserModel.id user)
              (AppConfig.ARCADE_TOOLS_CONFIG (World.config w))
    /\ World.db w' = World.db w
    /\ World.db_writes w' = World.db_writes w.
Proof.
  unfold merged_tools. intros Hrun.
  unfold bind at 1, gets at 1 in Hrun. unfold bind at 1 in Hrun.
  match type of Hrun with
  | match ?c with _ => _ end = _ =>
      destruct c as [[[]|e] w0] eqn:Hfetch; [|discriminate]
  end.
  assert (World.ARCADE_TOOLS w0 = World.ARCADE_TOOLS w
          /\ World.config w0 = World.config w
          /\ World.db w0 = World.db w
          /\ World.db_writes w0 = World.db_writes w
          /\ World.broker_calls w0 = World.broker_calls w)
    as (Harc & Hcfg & Hdb & Hlog & Hcalls0).
  { run. destruct (World.TOOL_SERVERS w); [|by simplify_eq].
    destruct (get_tool_servers_data _); by simplify_eq. }
  clear Hfetch.
  unfold bind at 1, Tools_get_tools, gets at 1 in Hrun.
  unfold bind at 1, gets at 1 in Hrun.
  unfold bind at 1 in Hrun.
  destruct (append_tool_servers 0 _ _ w0) as [[tools|e] w1] eqn:Hservers;
    [|discriminate].
  apply append_tool_servers_ok in Hservers
    as (servers & -> & Hsids & Hsame1 & Hcalls1).
  unfold bind at 1, gets at 1 in Hrun. unfold bind at 1, gets at 1 in Hrun.
  apply append_tool_kits_ok in Hrun
    as (kits & -> & Hkids & Hauth & Hsame2 & Hcalls2).
  destruct Hsame1 as (Hs1 & _ & Ha1 & Hc1 & Hd1 & Hw1).
  destruct Hsame2 as (Hs2 & _ & Ha2 & Hc2 & Hd2 & Hw2).
  exists servers, kits. rewrite <- app_assoc.
  split; [by rewrite Hdb|]. split; [by rewrite Hs2, Hs1|].
  split; [by rewrite Hkids, Hc1, Hcfg|].
  split; [by rewrite Hauth, Hcalls1, Hcalls0, Ha1, Hc1, Harc, Hcfg|].
  split; [by rewrite Hcalls2, Hcalls1, Hcalls0, Ha1, Hc1, Harc, Hcfg|].
  split; congruence.
Qed.

(** ** The catalog listing: the claims *)

Lemma get_tools_kept user w l w' :
  get_tools user w = (Ok l, w') ->
  exists merged, merged_tools user w = (Ok merged, w') /\ l = kept user merged.
Proof.
  unfold get_tools, kept. intros Hrun. unfold bind at 1 in Hrun.
  destruct (merged_tools user w) as [[merged|e] w1]; [|discriminate].
  exists merged. destruct (not_admin user); unfold ret in Hrun; by simplify_eq.
Qed.

Lemma not_admin_true user : UserModel.role user <> "admin" -> not_admin user = true.
Proof. intros Hrole. unfold not_admin. by apply String.eqb_neq in Hrole as ->. Qed.

Lemma not_admin_false user : UserModel.role user = "admin" -> not_admin user = false.
Proof. intros Hrole. unfold not_admin. by rewrite Hrole. Qed.


(** C1. When the listing returns for a caller who is not an admin, every
    entry of the list is owned by the caller or readable by the caller
    according to [has_access]; when it returns for an admin, the list is the
    merged list as it stands. *)
Theorem get_tools_access_filtered user w l w' :
  get_tools user w = (Ok l, w') ->
  exists merged,
    merged_tools user w = (Ok merged, w')
    /\ (UserModel.role user <> "admin" ->
        Forall (fun tool =>
                  entry_user_id tool = UserModel.id user
                  \/ has_access (UserModel.id user) "read"
                       (entry_access_control tool) = true) l)
    /\ (UserModel.role user = "admin" -> l = merged).
Proof.
  intros Hrun. apply get_tools_kept in Hrun as (merged & Hmerged & ->).
  exists merged. split; [done|]. unfold kept. split; intros Hrole.
  - rewrite (not_admin_true _ Hrole). apply List.Forall_forall.
    intros tool [_ Hvis]%List.filter_In. unfold visible_to in Hvis.
    apply orb_true_iff in Hvis as [Hown%String.eqb_eq | Hacc]; auto.
  - by rewrite (not_admin_false _ Hrole).
Qed.


(** C6. For an enabled toolkit whose member tools are all known, if the
    broker gives no result object (or is not called at all, for want of a
    provider), the entry built for the toolkit shows
    ["auth_completed": True] and ["auth_url": None]; if the broker gives a
    result, the entry shows whether the result's status is ["completed"]
    and the result's URL. In a listing that returns, the toolkit entries
    show these states for the answers the broker gave, in order. *)
Theorem tool_kit_entry_auth_state user :
  (forall mapper idx tool_kit w v ans,
      ToolKit.enabled tool_kit = true ->
      scan_tools mapper (ToolKit.tools tool_kit) auth_vars_init = Ok v ->
      broker_answer (World.broker_calls w) (UserModel.id user)
        (auth_requirement_of v) = Ok ans ->
      exists r w',
        tool_kit_response mapper user idx tool_kit w = (Ok r, w')
        /\ (forall tools rest,
               fst (append_tool_kits mapper user idx (tool_kit :: rest) tools w)
               = fst (append_tool_kits mapper user (S idx) rest
                        (tools ++ [Synth r]) w'))
        /\ dict_get "auth_completed" (ToolUserResponse.meta r)
           = Some (JBool match ans with
                         | Some a =>
                             bool_decide (AuthorizationResponse.status a
                                          = Some "completed")
                         | None => true
                         end)
        /\ dict_get "auth_url" (ToolUserResponse.meta r)
           = Some match ans with
                  | Some a => json_of_opt_str (AuthorizationResponse.url a)
                  | None => JNone
                  end)
  /\ (forall w merged w',
        merged_tools user w = (Ok merged, w') ->
        exists servers kits,
          merged = map Stored (Tools.get_tools (World.db w))
                   ++ map Synth servers ++ map Synth kits
          /\ length servers = length (World.TOOL_SERVERS w')
          /\ map shown_auth_state kits
             = map auth_state
                 (broker_answers (arcade_tool_mapper (World.ARCADE_TOOLS w))
                    (UserModel.id user) (World.broker_calls w)
                    (AppConfig.ARCADE_TOOLS_CONFIG (World.config w)))).
Proof.
  split.
  - intros mapper idx tool_kit w v ans Hon Hscan Hans.
    destruct (tool_kit_response_run mapper user idx tool_kit w v ans Hscan Hans)
      as (w' & Hrun & _).
    eexists _, w'. split; [exact Hrun|]. split.
    { intros tools rest. cbn [append_tool_kits]. rewrite Hon.
      unfold bind at 1. by rewrite Hrun. }
    destruct ans; split; reflexivity.
  - intros w merged w' Hrun.
    apply merged_tools_ok in Hrun
      as (servers & kits & -> & Hsids & _ & Hauth & _).
    exists servers, kits. split; [done|]. split; [|done].
    by rewrite <- (length_map ToolUserResponse.id servers), Hsids, length_map.
Qed.

(** C7. In a listing that returns, the calls the broker receives are, in
    configuration order, one per enabled toolkit for which a provider id
    and a provider type are found, each with the caller's id and the
    prescribed requirement. That requirement carries every scope declared
    by a member tool once, and as identity, provider id and provider type
    the first non-empty value met over the member tools in order. *)
Theorem broker_receives_prescribed_requirement user w l w' :
  get_tools user w = (Ok l, w') ->
  let mapper := arcade_tool_mapper (World.ARCADE_TOOLS w) in
  World.broker_calls w'
  = World.broker_calls w
    ++ prescribed_calls mapper (UserModel.id user)
         (AppConfig.ARCADE_TOOLS_CONFIG (World.config w))
  /\ forall tool_kit r,
      prescribed_requirement mapper tool_kit = Some r ->
      let auths := member_authorizations mapper tool_kit in
      NoDup (AuthRequirement.scopes r)
      /\ (forall scope,
            scope ∈ AuthRequirement.scopes r
            <-> exists auth, auth ∈ auths /\ scope ∈ oauth2_scopes auth)
      /\ AuthRequirement.id r = first_non_empty (map Authorization.id auths)
      /\ Some (AuthRequirement.provider_id r)
         = first_non_empty (map Authorization.provider_id auths)
      /\ Some (AuthRequirement.provider_type r)
         = first_non_empty (map Authorization.provider_type auths).
Proof.
  intros Hrun mapper. split.
  - apply get_tools_kept in Hrun as (merged & Hmerged & _).
    by apply merged_tools_ok in Hmerged as (? & ? & _ & _ & _ & _ & Hcalls & _).
  - intros tool_kit r Hreq auths. unfold prescribed_requirement in Hreq.
    fold auths in Hreq.
    destruct (first_non_empty (map Authorization.provider_id auths)) as [p|];
      [|discriminate].
    destruct (first_non_empty (map Authorization.provider_type auths)) as [t|];
      [|discriminate].
    injection Hreq as <-. cbn.
    split; [apply NoDup_elements|]. split; [|done].
    intros scope. rewrite elem_of_elements. unfold declared_scopes.
    rewrite elem_of_union_list. split.
    + intros (X & HX & Hin). apply list_elem_of_fmap in HX as (auth & -> & Hauth).
      exists auth. split; [done|]. by apply elem_of_list_to_set in Hin.
    + intros (auth & Hauth & Hin). exists (list_to_set (oauth2_scopes auth)).
      split; [|by apply elem_of_list_to_set].
      apply list_elem_of_fmap. by exists auth.
Qed.

End RouterFacts.

(** * The properties at work on the reference instance *)

(** C1 at work: [u3], not an admin, lists the catalog of the busy state;
    [root], an admin, gets the merged list. *)
Lemma get_tools_access_filtered_witness :
  exists l w' l0 w0,
    get_tools Demo.u3 Demo.busy_world = (Ok l, w')
    /\ Forall (fun tool =>
                entry_user_id tool = "u3"
                \/ Demo.grants "u3" "read" (entry_access_control tool) = true) l
    /\ map entry_id l = ["calc"; "server:0"; "arcade:1"]
    /\ get_tools Demo.root Demo.busy_world = (Ok l0, w0)
    /\ merged_tools Demo.root Demo.busy_world = (Ok l0, w0).
Proof.
  eexists _, _, _, _.
  split; [vm_compute; reflexivity|].
  split.
  { edestruct (get_tools_access_filtered Demo.u3 Demo.busy_world)
      as (merged & _ & Hfiltered & _); [vm_compute; reflexivity|].
    apply Hfiltered. discriminate. }
  split; [reflexivity|].
  split; [vm_compute; reflexivity|].
  edestruct (get_tools_access_filtered Demo.root Demo.busy_world)
    as (merged & Hmerged & _ & Hadmin); [vm_compute; reflexivity|].
  rewrite (Hadmin eq_refl). exact Hmerged.
Defined.

(** C2 at work: ["9bad!"] is refused; ["Calc"] is refused when ["calc"] is
    taken. *)
Lemma create_new_tools_id_checks_witness :
  create_new_tools (Demo.form "9bad!" "class Tools: pass") Demo.root
    (Demo.world_of [])
  = (Raise (HTTPException 400
       "Only alphanumeric characters and underscores are allowed in the id"),
     Demo.world_of [])
  /\ create_new_tools (Demo.form "Calc" "class Tools: pass") Demo.root
       (Demo.world_of [Demo.calc])
     = (Raise (HTTPException 400 (ID_TAKEN ERROR_MESSAGES)),
        Demo.world_of [Demo.calc]).
Proof.
  split.
  - apply (proj1 (create_new_tools_id_checks
                    (Demo.form "9bad!" "class Tools: pass") Demo.root
                    (Demo.world_of []) eq_refl)).
    reflexivity.
  - apply (proj1 (proj2 (create_new_tools_id_checks
                           (Demo.form "Calc" "class Tools: pass") Demo.root
                           (Demo.world_of [Demo.calc]) eq_refl))).
    + reflexivity.
    + exists Demo.calc. vm_compute. reflexivity.
Defined.

(** Creating ["Calc"] in an empty table: the record is stored under
    ["calc"], and nothing is stored under ["Calc"]. *)
Example demo_create_Calc :
  let run :=
    create_new_tools (Demo.form "Calc" "class Tools: pass") Demo.root
      (Demo.world_of []) in
  (ToolModel.id <$> match fst run with Ok t => Some t | Raise _ => None end)
  = Some "calc"
  /\ (ToolModel.id <$> Demo.rows (World.db (snd run)) !! "calc") = Some "calc"
  /\ Demo.rows (World.db (snd run)) !! "Calc" = None.
Proof. vm_compute. repeat split. Qed.

(** C3, the claim as stated fails: ["ghost"] is not in the table, and
    deleting it, even as an admin, returns no boolean. *)
Lemma delete_absent_id_raises :
  Tools.get_tool_by_id (World.db (Demo.world_of [Demo.calc])) "ghost" = None
  /\ ~ exists (b : bool) w',
        delete_tools_by_id "ghost" Demo.root (Demo.world_of [Demo.calc])
        = (Ok b, w').
Proof.
  split; [vm_compute; reflexivity|].
  intros (b & w' & Hrun). vm_compute in Hrun. discriminate Hrun.
Qed.

(** C3 at work: the owner deletes ["calc"]; nobody can delete ["ghost"]. *)
Lemma delete_tools_by_id_outcomes_witness :
  fst (delete_tools_by_id "calc" Demo.u1 (Demo.world_of [Demo.calc])) = Ok true
  /\ delete_tools_by_id "ghost" Demo.u1 (Demo.world_of [Demo.calc])
     = (Raise (HTTPException 401 (NOT_FOUND ERROR_MESSAGES)),
        Demo.world_of [Demo.calc]).
Proof.
  split.
  - rewrite (proj1 (delete_tools_by_id_outcomes "calc" Demo.u1
                      (Demo.world_of [Demo.calc])) Demo.calc);
      vm_compute; reflexivity.
  - apply (proj2 (delete_tools_by_id_outcomes "ghost" Demo.u1
                    (Demo.world_of [Demo.calc]))).
    vm_compute. reflexivity.
Defined.

(** C4, where the code departs from it. [u3] is neither admin nor owner of
    ["notes"] and has neither read nor write access to it. Asking for the
    record raises nothing and yields no value; setting its valves raises
    400, where update and delete raise 401 for the same caller. *)
Theorem refusals_other_than_401 :
  let w := Demo.world_of [Demo.notes] in
  Demo.grants "u3" "read" (ToolModel.access_control Demo.notes) = false
  /\ Demo.grants "u3" "write" (ToolModel.access_control Demo.notes) = false
  /\ get_tools_by_id "notes" Demo.u3 w = (Ok None, w)
  /\ update_tools_valves_by_id "notes" [("key", JStr "k")] Demo.u3 w
     = (Raise (HTTPException 400 (ACCESS_PROHIBITED ERROR_MESSAGES)), w)
  /\ update_tools_by_id "notes" (Demo.form "notes" "class Tools: pass")
       Demo.u3 w
     = (Raise (HTTPException 401 (UNAUTHORIZED ERROR_MESSAGES)), w)
  /\ delete_tools_by_id "notes" Demo.u3 w
     = (Raise (HTTPException 401 (UNAUTHORIZED ERROR_MESSAGES)), w).
Proof.
  intros w. split; [reflexivity|]. split; [reflexivity|].
  split; [|split; [|split]].
  - apply (get_tools_by_id_unreadable "notes" Demo.u3 w Demo.notes);
      [vm_compute; reflexivity | discriminate | discriminate | reflexivity].
  - apply (update_tools_valves_by_id_denied _ _ Demo.u3 w Demo.notes);
      vm_compute; reflexivity.
  - apply (update_tools_by_id_denied _ _ Demo.u3 w Demo.notes);
      vm_compute; reflexivity.
  - apply (delete_tools_by_id_denied _ Demo.u3 w Demo.notes);
      vm_compute; reflexivity.
Qed.

(** C5 at work: an update and a create with empty source text. *)
Lemma source_failure_is_400_without_write_witness :
  let e := Exception "No Tools class found" in
  let refused := Raise (HTTPException 400 (DEFAULT ERROR_MESSAGES (str e))) in
  (exists w',
      update_tools_by_id "calc" (Demo.form "calc" "") Demo.u1
        (Demo.world_of [Demo.calc]) = (refused, w')
      /\ World.db w' = World.db (Demo.world_of [Demo.calc])
      /\ World.db_writes w' = [])
  /\ (exists w',
        create_new_tools (Demo.form "Calc" "") Demo.root (Demo.world_of [])
        = (refused, w')
        /\ World.db w' = World.db (Demo.world_of [])
        /\ World.db_writes w' = []).
Proof.
  intros e refused. split.
  - apply (proj1 (source_failure_is_400_without_write (Demo.form "calc" "")
                    Demo.u1 (Demo.world_of [Demo.calc]) e) "calc" Demo.calc).
    + vm_compute. reflexivity.
    + reflexivity.
    + left. reflexivity.
  - apply (proj1 (proj2 (source_failure_is_400_without_write
                           (Demo.form "Calc" "") Demo.root (Demo.world_of [])
                           e))).
    + reflexivity.
    + reflexivity.
    + vm_compute. reflexivity.
    + left. reflexivity.
Defined.

(** C6 at work: the ["Mail"] toolkit, for which the broker answers
    ["pending"] with a URL. *)
Lemma tool_kit_entry_auth_state_witness :
  exists r w',
    tool_kit_response (arcade_tool_mapper Demo.arcade_tools) Demo.u1 1
      Demo.mail_kit Demo.busy_world = (Ok r, w')
    /\ dict_get "auth_completed" (ToolUserResponse.meta r) = Some (JBool false)
    /\ dict_get "auth_url" (ToolUserResponse.meta r)
       = Some (JStr "https://broker.example/authorize").
Proof.
  edestruct (proj1 (tool_kit_entry_auth_state Demo.u1)
               (arcade_tool_mapper Demo.arcade_tools) 1%nat Demo.mail_kit
               Demo.busy_world Demo.mail_vars (Some Demo.answer))
    as (r & w' & Hrun & _ & Hcompleted & Hurl);
    [ | | | exists r, w';
            split; [exact Hrun | split; [exact Hcompleted | exact Hurl]]].
  - reflexivity.
  - vm_compute. reflexivity.
  - vm_compute. reflexivity.
Defined.

(** C7 at work: the one call the broker receives for the busy state. *)
Lemma broker_receives_prescribed_requirement_witness :
  exists l w',
    get_tools Demo.root Demo.busy_world = (Ok l, w')
    /\ World.broker_calls w'
       = [({| AuthRequirement.provider_id := "google";
              AuthRequirement.provider_type := "oauth2";
              AuthRequirement.scopes := ["send"; "read"];
              AuthRequirement.id := Some "g1" |}, "root")].
Proof.
  eexists _, _. split; [vm_compute; reflexivity|].
  edestruct (broker_receives_prescribed_requirement Demo.root Demo.busy_world)
    as [Hcalls _]; [vm_compute; reflexivity|].
  rewrite Hcalls. vm_compute. reflexivity.
Defined.


(** C9 at work: a payload with a null value, one the class rejects, and
    one it accepts, which is written and echoed without the null key. *)
Lemma valves_update_null_is_omitted_witness :
  update_tools_valves_by_id "calc" [("key", JStr "k"); ("spare", JNone)]
    Demo.u1 (Demo.world_of [Demo.calc])
  = update_tools_valves_by_id "calc" [("key", JStr "k")]
      Demo.u1 (Demo.world_of [Demo.calc])
  /\ (exists w1,
        update_tools_valves_by_id "calc" [("key", JInt 3); ("spare", JNone)]
          Demo.u1 (Demo.world_of [Demo.calc])
        = (Raise (HTTPException 400
             (DEFAULT ERROR_MESSAGES "key: Input should be a valid string")),
           w1)
        /\ World.db_writes w1 = [])
  /\ (exists w',
        update_tools_valves_by_id "calc" [("key", JStr "k"); ("spare", JNone)]
          Demo.u1 (Demo.world_of [Demo.calc])
        = (Ok [("key", JStr "k")], w')
        /\ World.db_writes w'
           = [W_update_tool_valves_by_id "calc" [("key", JStr "k")]]
        /\ Demo.valves (World.db w') !! "calc" = Some [("key", JStr "k")]).
Proof.
  split; [|split].
  - apply (proj1 (proj2 (valves_update_null_is_omitted "calc"
                           [("key", JStr "k"); ("spare", JNone)] Demo.u1
                           (Demo.world_of [Demo.calc])))).
  - edestruct (proj1 (proj2 (proj2 (proj2
                 (valves_update_null_is_omitted "calc"
                    [("key", JInt 3); ("spare", JNone)] Demo.u1
                    (Demo.world_of [Demo.calc])))))
               Demo.calc Demo.tools_module
               (World.set_TOOLS {["calc" := Demo.tools_module]}
                  (Demo.world_of [Demo.calc]))
               Demo.KeyValves
               (Exception "key: Input should be a valid string"))
      as (Hrun & _ & Hlog);
      [ | | | | | eexists; split; [exact Hrun | exact Hlog]].
    + vm_compute. reflexivity.
    + reflexivity.
    + vm_compute. reflexivity.
    + reflexivity.
    + reflexivity.
  - edestruct (proj1 (proj2 (proj2 (proj2 (proj2 (proj2
                 (valves_update_null_is_omitted "calc"
                    [("key", JStr "k"); ("spare", JNone)] Demo.u1
                    (Demo.world_of [Demo.calc])))))))
               Demo.calc Demo.tools_module
               (World.set_TOOLS {["calc" := Demo.tools_module]}
                  (Demo.world_of [Demo.calc]))
               Demo.KeyValves
               {| BaseModel.model_dump := [("key", JStr "k")] |})
      as (Hrun & _);
      [ | | | | | eexists; split; [exact Hrun | split; reflexivity]].
    + vm_compute. reflexivity.
    + reflexivity.
    + vm_compute. reflexivity.
    + reflexivity.
    + reflexivity.
Defined.

(** C10 at work: [u3] has no access to ["notes"] and reads its valves. *)
Lemma get_tools_valves_by_id_only_needs_record_witness :
  get_tools_valves_by_id "notes" Demo.u3 (Demo.world_of [Demo.notes])
  = (Ok (Tools.get_tool_valves_by_id (World.db (Demo.world_of [Demo.notes]))
           "notes"),
     Demo.world_of [Demo.notes]).
Proof.
  apply (get_tools_valves_by_id_only_needs_record "notes" Demo.u3
           (Demo.world_of [Demo.notes]) Demo.notes).
  vm_compute. reflexivity.
Defined.

(** * Further properties of the handlers *)

Section RouterMore.

Context {Db : Type} `{!Tools.Table Db} `{!Collaborators Db}.

Implicit Types (w : World.t Db) (user : UserModel.t) (id : string).

(** ** The listing, whatever its outcome *)

Lemma tool_server_response_frame idx server w r w' :
  tool_server_response idx server w = (r, w') ->
  same_app w w' /\ World.broker_calls w' = World.broker_calls w.
Proof.
  unfold tool_server_response, now. run. intros Hrun.
  destruct (_ !! idx); simplify_eq; repeat split.
Qed.

Lemma append_tool_servers_frame servers : forall idx tools w r w',
  append_tool_servers idx servers tools w = (r, w') ->
  same_app w w' /\ World.broker_calls w' = World.broker_calls w.
Proof.
  induction servers as [|server rest IH]; intros idx tools w r w' Hrun.
  - cbn in Hrun. unfold ret in Hrun. simplify_eq. repeat split.
  - cbn [append_tool_servers] in Hrun. unfold bind at 1 in Hrun.
    destruct (tool_server_response idx server w) as [[x|e] w1] eqn:Hone;
      apply tool_server_response_frame in Hone as [Hsame Hcalls].
    + apply IH in Hrun as [Hsame' Hcalls'].
      split; [eapply same_app_trans; eauto | congruence].
    + by simplify_eq.
Qed.

Lemma tool_kit_response_frame mapper user idx tool_kit w r w' :
  tool_kit_response mapper user idx tool_kit w = (r, w') -> same_app w w'.
Proof.
  unfold tool_kit_response, now, client_auth_authorize. run. intros Hrun.
  destruct (scan_tools _ _ _); [|simplify_eq; repeat split].
  destruct (auth_requirement_of _); [destruct (authorize _ _ _)|];
    simplify_eq; repeat split.
Qed.

Lemma append_tool_kits_frame mapper user tool_kits : forall idx tools w r w',
  append_tool_kits mapper user idx tool_kits tools w = (r, w') ->
  same_app w w'.
Proof.
  induction tool_kits as [|tool_kit rest IH]; intros idx tools w r w' Hrun.
  - cbn in Hrun. unfold ret in Hrun. simplify_eq. repeat split.
  - cbn [append_tool_kits] in Hrun. destruct (ToolKit.enabled tool_kit).
    + unfold bind at 1 in Hrun.
      destruct (tool_kit_response mapper user idx tool_kit w)
        as [[x|e] w1] eqn:Hone; apply tool_kit_response_frame in Hone.
      * apply IH in Hrun. eapply same_app_trans; eauto.
      * by simplify_eq.
    + by apply IH in Hrun.
Qed.

Lemma merged_tools_split user w :
  merged_tools user w
  = match World.TOOL_SERVERS w with
    | [] =>
        match get_tool_servers_data
                (AppConfig.TOOL_SERVER_CONNECTIONS (World.config w)) with
        | Ok data => merged_from_cache user (World.set_TOOL_SERVERS data w)
        | Raise e => (Raise e, w)
        end
    | _ :: _ => merged_from_cache user w
    end.
Proof.
  unfold merged_tools, merged_from_cache.
  unfold bind at 1, gets at 1. unfold bind at 1.
  destruct (World.TOOL_SERVERS w); [|reflexivity].
  unfold bind at 1, gets at 1. unfold bind at 1, call at 1.
  destruct (get_tool_servers_data _); reflexivity.
Qed.

Lemma merged_from_cache_frame user w r w' :
  merged_from_cache user w = (r, w') -> same_app w w'.
Proof.
  unfold merged_from_cache. intros Hrun.
  unfold bind at 1, Tools_get_tools, gets at 1 in Hrun.
  unfold bind at 1, gets at 1 in Hrun. unfold bind at 1 in Hrun.
  destruct (append_tool_servers 0 _ _ w) as [[tools|e] w1] eqn:Hservers;
    apply append_tool_servers_frame in Hservers as [Hsame _].
  - unfold bind at 1, gets at 1 in Hrun. unfold bind at 1, gets at 1 in Hrun.
    apply append_tool_kits_frame in Hrun. eapply same_app_trans; eauto.
  - by simplify_eq.
Qed.

Lemma get_tools_state user w :
  snd (get_tools user w) = snd (merged_tools user w).
Proof.
  unfold get_tools, bind at 1.
  destruct (merged_tools user w) as [[l|e] w1]; [|reflexivity].
  destruct (not_admin user); reflexivity.
Qed.

(** X1. Whatever its outcome, the listing issues no write and leaves the
    table, the loaded modules, the configuration and the broker's tool
    metadata as they were. *)
Theorem get_tools_never_writes user w r w' :
  get_tools user w = (r, w') ->
  World.db w' = World.db w
  /\ World.db_writes w' = World.db_writes w
  /\ World.TOOLS w' = World.TOOLS w
  /\ World.config w' = World.config w
  /\ World.ARCADE_TOOLS w' = World.ARCADE_TOOLS w.
Proof.
  intros Hrun. pose proof (get_tools_state user w) as Hst.
  rewrite Hrun in Hst. cbn [snd] in Hst. subst w'.
  rewrite merged_tools_split.
  destruct (World.TOOL_SERVERS w).
  - destruct (get_tool_servers_data _) as [data|e]; [|done].
    destruct (merged_from_cache user _) as [r1 w1] eqn:Hm.
    apply merged_from_cache_frame in Hm as (_ & ? & ? & ? & ? & ?). done.
  - destruct (merged_from_cache user w) as [r1 w1] eqn:Hm.
    apply merged_from_cache_frame in Hm as (_ & ? & ? & ? & ? & ?). done.
Qed.

(** X2. The cache of tool servers after a listing, whatever its outcome: a
    cache that is not empty stays as it is; an empty cache receives what
    the registry returns for the configured connections. When the registry
    raises on an empty cache, the listing raises the same exception and
    the state is as before. *)
Theorem get_tools_server_cache user w r w' :
  get_tools user w = (r, w') ->
  World.TOOL_SERVERS w'
  = match World.TOOL_SERVERS w with
    | [] =>
        match get_tool_servers_data
                (AppConfig.TOOL_SERVER_CONNECTIONS (World.config w)) with
        | Ok data => data
        | Raise _ => []
        end
    | cache => cache
    end
  /\ (forall e,
        World.TOOL_SERVERS w = [] ->
        get_tool_servers_data
          (AppConfig.TOOL_SERVER_CONNECTIONS (World.config w)) = Raise e ->
        r = Raise e /\ w' = w).
Proof.
  intros Hrun. split.
  - pose proof (get_tools_state user w) as Hst.
    rewrite Hrun in Hst. cbn [snd] in Hst. subst w'.
    rewrite merged_tools_split.
    destruct (World.TOOL_SERVERS w) eqn:Hcache.
    + destruct (get_tool_servers_data _) as [data|e]; [|done].
      destruct (merged_from_cache user _) as [r1 w1] eqn:Hm.
      apply merged_from_cache_frame in Hm as (Hs & _). cbn. by rewrite Hs.
    + destruct (merged_from_cache user w) as [r1 w1] eqn:Hm.
      apply merged_from_cache_frame in Hm as (Hs & _). cbn.
      by rewrite Hs, Hcache.
  - intros e Hcache Hfetch. unfold get_tools, bind at 1 in Hrun.
    rewrite merged_tools_split, Hcache, Hfetch in Hrun. by simplify_eq.
Qed.

(** ** Indexing out of range, missing keys *)

Lemma append_tool_servers_index_error servers : forall idx tools w,
  (idx <= length (AppConfig.TOOL_SERVER_CONNECTIONS (World.config w)))%nat ->
  (length (AppConfig.TOOL_SERVER_CONNECTIONS (World.config w))
   < idx + length servers)%nat ->
  fst (append_tool_servers idx servers tools w)
  = Raise (Exception "IndexError: list index out of range").
Proof.
  induction servers as [|server rest IH]; intros idx tools w Hle Hlt.
  - cbn in Hlt. lia.
  - cbn [append_tool_servers]. unfold bind at 1.
    unfold tool_server_response. unfold bind at 1, gets at 1.
    destruct (_ !! idx) as [connection|] eqn:Hconn; [|reflexivity].
    apply lookup_lt_Some in Hconn. unfold now. run.
    apply IH; cbn in *; lia.
Qed.

(** X3. When the cache holds more tool servers than there are configured
    connections, the listing raises an [IndexError], which is no
    [HTTPException]: the access control of the server at position [n] is
    read from the connection at position [n]. *)
Theorem get_tools_more_servers_than_connections user w :
  (length (AppConfig.TOOL_SERVER_CONNECTIONS (World.config w))
   < length (World.TOOL_SERVERS w))%nat ->
  fst (get_tools user w)
  = Raise (Exception "IndexError: list index out of range").
Proof.
  intros Hlt. unfold get_tools, bind at 1. rewrite merged_tools_split.
  destruct (World.TOOL_SERVERS w) as [|server cache] eqn:Hcache;
    [cbn in Hlt; lia|].
  unfold merged_from_cache.
  unfold bind at 1, Tools_get_tools, gets at 1.
  unfold bind at 1, gets at 1. unfold bind at 1. rewrite Hcache.
  pose proof (append_tool_servers_index_error (server :: cache) 0
                (map Stored (Tools.get_tools (World.db w))) w) as Herr.
  destruct (append_tool_servers 0 (server :: cache) _ w) as [[l|e] w1];
    cbn [fst] in Herr.
  - discriminate Herr; [lia | cbn in *; lia].
  - rewrite Herr; [reflexivity | lia | cbn in *; lia].
Qed.

Lemma scan_tool_known mapper tool v arcade_tool :
  mapper !! ToolKit.name tool = Some arcade_tool ->
  exists v', scan_tool mapper tool v = Ok v'.
Proof.
  intros Hin. unfold scan_tool. rewrite Hin.
  destruct (ArcadeTool.requirements arcade_tool) as [req|]; [|eauto].
  destruct (ArcadeTool.authorization req); eauto.
Qed.

Lemma scan_tools_first_unknown mapper before tool after : forall v,
  Forall (fun known => is_Some (mapper !! ToolKit.name known)) before ->
  mapper !! ToolKit.name tool = None ->
  scan_tools mapper (before ++ tool :: after) v
  = Raise (Exception ("KeyError: " +:+ ToolKit.name tool)).
Proof.
  induction before as [|known before IH]; intros v Hknown Hbad.
  - cbn [app scan_tools]. unfold scan_tool. by rewrite Hbad.
  - apply Forall_cons in Hknown as [[arcade_tool Hin] Hknown].
    cbn [app scan_tools].
    destruct (scan_tool_known mapper known v arcade_tool Hin) as [v' ->].
    by apply IH.
Qed.

(** X4. When an enabled toolkit lists a member tool whose name is not a
    key of the mapper, the loop over the toolkits, on reaching that
    toolkit, raises a [KeyError] naming the first such member (the one
    all of whose predecessors in the toolkit are known), before the
    broker is called and before the clock is read: the state is as it
    was. *)
Theorem append_tool_kits_unknown_member
  mapper user idx tool_kit rest tools w before tool after :
  ToolKit.enabled tool_kit = true ->
  ToolKit.tools tool_kit = before ++ tool :: after ->
  Forall (fun known => is_Some (mapper !! ToolKit.name known)) before ->
  mapper !! ToolKit.name tool = None ->
  append_tool_kits mapper user idx (tool_kit :: rest) tools w
  = (Raise (Exception ("KeyError: " +:+ ToolKit.name tool)), w).
Proof.
  intros Hon Hmembers Hknown Hbad.
  cbn [append_tool_kits]. rewrite Hon.
  unfold bind at 1, tool_kit_response, bind at 1, call at 1.
  rewrite Hmembers.
  by rewrite (scan_tools_first_unknown mapper before tool after
                auth_vars_init Hknown Hbad).
Qed.

(** ** The mapper of broker tools *)

Lemma arcade_tool_mapper_snoc arcade_tools tool :
  arcade_tool_mapper (arcade_tools ++ [tool])
  = <[ArcadeTool.qualified_name tool := tool]>
      (arcade_tool_mapper arcade_tools).
Proof. unfold arcade_tool_mapper. by rewrite foldl_app. Qed.

(** X5. The mapper built from the broker's tool metadata maps a name to the
    last tool of the list that carries it as qualified name, and has no
    entry for a name no tool carries. *)
Theorem arcade_tool_mapper_lookup arcade_tools name :
  arcade_tool_mapper arcade_tools !! name
  = last (List.filter
            (fun tool => String.eqb (ArcadeTool.qualified_name tool) name)
            arcade_tools).
Proof.
  induction arcade_tools as [|tool arcade_tools IH] using rev_ind.
  - reflexivity.
  - rewrite arcade_tool_mapper_snoc, List.filter_app. cbn [List.filter].
    destruct (String.eqb_spec (ArcadeTool.qualified_name tool) name)
      as [Heq|Hne].
    + rewrite Heq, lookup_insert_eq. by rewrite last_snoc.
    + rewrite lookup_insert_ne by done. by rewrite app_nil_r.
Qed.

(** ** The entries of the tool servers *)

Lemma tool_server_response_fields idx server w r w' :
  tool_server_response idx server w = (Ok r, w') ->
  exists connection,
    AppConfig.TOOL_SERVER_CONNECTIONS (World.config w) !! idx = Some connection
    /\ ToolUserResponse.id r = "server:" +:+ pretty (ToolServer.idx server)
    /\ ToolUserResponse.user_id r = ToolUserResponse.id r
    /\ ToolUserResponse.access_control r
       = connection_access_control connection.
Proof.
  unfold tool_server_response, now. run. intros Hrun.
  destruct (_ !! idx) as [connection|]; simplify_eq.
  exists connection. repeat split.
Qed.

Lemma append_tool_servers_lookup servers : forall idx tools w out w',
  append_tool_servers idx servers tools w = (Ok out, w') ->
  forall k server,
    servers !! k = Some server ->
    exists r connection,
      out !! (length tools + k)%nat = Some (Synth r)
      /\ AppConfig.TOOL_SERVER_CONNECTIONS (World.config w) !! (idx + k)%nat
         = Some connection
      /\ ToolUserResponse.id r = "server:" +:+ pretty (ToolServer.idx server)
      /\ ToolUserResponse.user_id r = ToolUserResponse.id r
      /\ ToolUserResponse.access_control r
         = connection_access_control connection.
Proof.
  induction servers as [|first rest IH]; intros idx tools w out w' Hrun k server Hk.
  - by rewrite lookup_nil in Hk.
  - cbn [append_tool_servers] in Hrun. unfold bind at 1 in Hrun.
    destruct (tool_server_response idx first w) as [[r|e] w1] eqn:Hone;
      [|discriminate].
    pose proof (tool_server_response_frame _ _ _ _ _ Hone)
      as [(_ & _ & _ & Hcfg & _) _].
    apply tool_server_response_fields in Hone
      as (connection & Hconn & Hid & Huid & Hac).
    destruct k as [|k]; cbn in Hk.
    + injection Hk as <-.
      apply append_tool_servers_ok in Hrun as (rs & -> & _).
      exists r, connection. rewrite !Nat.add_0_r.
      split; [|done].
      rewrite <- app_assoc. rewrite lookup_app_r by lia.
      by rewrite Nat.sub_diag.
    + destruct (IH _ _ _ _ _ Hrun k server Hk)
        as (r' & connection' & Hout & Hconn' & Hfields).
      exists r', connection'. rewrite length_app in Hout. cbn in Hout.
      rewrite Hcfg in Hconn'.
      replace (length tools + S k)%nat with (length tools + 1 + k)%nat by lia.
      replace (idx + S k)%nat with (S idx + k)%nat by lia.
      done.
Qed.

Lemma merged_from_cache_parts user w merged w' :
  merged_from_cache user w = (Ok merged, w') ->
  exists mid w1,
    append_tool_servers 0 (World.TOOL_SERVERS w)
      (map Stored (Tools.get_tools (World.db w))) w = (Ok mid, w1)
    /\ append_tool_kits (arcade_tool_mapper (World.ARCADE_TOOLS w1)) user 0
         (AppConfig.ARCADE_TOOLS_CONFIG (World.config w1)) mid w1
       = (Ok merged, w').
Proof.
  unfold merged_from_cache. intros Hrun.
  unfold bind at 1, Tools_get_tools, gets at 1 in Hrun.
  unfold bind at 1, gets at 1 in Hrun. unfold bind at 1 in Hrun.
  destruct (append_tool_servers 0 _ _ w) as [[mid|e] w1] eqn:Hservers;
    [|discriminate].
  exists mid, w1. split; [reflexivity|].
  unfold bind at 1, gets at 1 in Hrun. unfold bind at 1, gets at 1 in Hrun.
  exact Hrun.
Qed.

Lemma merged_from_cache_servers user w merged w' :
  merged_from_cache user w = (Ok merged, w') ->
  forall k server,
    World.TOOL_SERVERS w !! k = Some server ->
    exists r connection,
      merged !! (length (Tools.get_tools (World.db w)) + k)%nat
      = Some (Synth r)
      /\ AppConfig.TOOL_SERVER_CONNECTIONS (World.config w) !! k
         = Some connection
      /\ ToolUserResponse.id r = "server:" +:+ pretty (ToolServer.idx server)
      /\ ToolUserResponse.user_id r = ToolUserResponse.id r
      /\ ToolUserResponse.access_control r
         = connection_access_control connection.
Proof.
  intros Hrun k server Hk.
  apply merged_from_cache_parts in Hrun as (mid & w1 & Hservers & Hkits).
  destruct (append_tool_servers_lookup _ _ _ _ _ _ Hservers k server Hk)
    as (r & connection & Hmid & Hconn & Hfields).
  apply append_tool_kits_ok in Hkits as (rs & -> & _).
  exists r, connection. rewrite length_map in Hmid. cbn in Hconn.
  split; [by apply lookup_app_l_Some | done].
Qed.

(** X6. In a merged list, the entry of the server at position [k] of the
    cache stands at position [k] after the records of the table. Its id
    and its user id are ["server:"] followed by the server's own [idx];
    its access control is that of the connection at position [k] of the
    configuration, whatever the server's own [idx] is. *)
Theorem merged_tools_server_entry user w merged w' k server :
  merged_tools user w = (Ok merged, w') ->
  World.TOOL_SERVERS w' !! k = Some server ->
  exists r connection,
    merged !! (length (Tools.get_tools (World.db w)) + k)%nat = Some (Synth r)
    /\ AppConfig.TOOL_SERVER_CONNECTIONS (World.config w) !! k
       = Some connection
    /\ ToolUserResponse.id r = "server:" +:+ pretty (ToolServer.idx server)
    /\ ToolUserResponse.user_id r = ToolUserResponse.id r
    /\ ToolUserResponse.access_control r
       = connection_access_control connection.
Proof.
  rewrite merged_tools_split. intros Hrun Hk.
  destruct (World.TOOL_SERVERS w) as [|s0 cache] eqn:Hcache.
  - destruct (get_tool_servers_data _) as [data|e]; [|discriminate].
    pose proof (merged_from_cache_frame _ _ _ _ Hrun) as (Hs & _).
    rewrite Hs in Hk.
    exact (merged_from_cache_servers _ _ _ _ Hrun k server Hk).
  - pose proof (merged_from_cache_frame _ _ _ _ Hrun) as (Hs & _).
    rewrite Hs in Hk.
    exact (merged_from_cache_servers _ _ _ _ Hrun k server Hk).
Qed.

(** ** Counting and naming the entries *)

Lemma arcade_ids_length tool_kits : forall idx,
  length (arcade_ids idx tool_kits)
  = length (List.filter ToolKit.enabled tool_kits).
Proof.
  induction tool_kits as [|tool_kit rest IH]; intros idx; [reflexivity|].
  cbn. destruct (ToolKit.enabled tool_kit); cbn; by rewrite IH.
Qed.

(** X7. An admin's listing has as many entries as there are records in the
    table, servers in the cache and enabled toolkits in the configuration
    together. *)
Theorem get_tools_admin_count user w l w' :
  UserModel.role user = "admin" ->
  get_tools user w = (Ok l, w') ->
  length l
  = (length (Tools.get_tools (World.db w))
     + length (World.TOOL_SERVERS w')
     + length (List.filter ToolKit.enabled
                 (AppConfig.ARCADE_TOOLS_CONFIG (World.config w))))%nat.
Proof.
  intros Hrole Hrun. apply get_tools_kept in Hrun as (merged & Hmerged & ->).
  unfold kept. rewrite (not_admin_false _ Hrole).
  apply merged_tools_ok in Hmerged as (servers & kits & -> & Hsids & Hkids & _).
  rewrite !length_app, !length_map.
  rewrite <- (length_map ToolUserResponse.id servers), Hsids, length_map.
  rewrite <- (length_map ToolUserResponse.id kits), Hkids, arcade_ids_length.
  lia.
Qed.

Lemma arcade_id_inj (i j : nat) :
  "arcade:" +:+ pretty i = "arcade:" +:+ pretty j -> i = j.
Proof. cbn. intros Heq. injection Heq as Heq. by apply (inj pretty). Qed.

Lemma arcade_ids_from tool_kits : forall idx x,
  x ∈ arcade_ids idx tool_kits ->
  exists j, (idx <= j)%nat /\ x = "arcade:" +:+ pretty j.
Proof.
  induction tool_kits as [|tool_kit rest IH]; intros idx x Hin.
  - by apply elem_of_nil in Hin.
  - cbn in Hin. destruct (ToolKit.enabled tool_kit).
    + apply elem_of_cons in Hin as [->|Hin]; [by exists idx|].
      apply IH in Hin as (j & Hle & ->). exists j. split; [lia | done].
    + apply IH in Hin as (j & Hle & ->). exists j. split; [lia | done].
Qed.

Lemma arcade_ids_NoDup tool_kits : forall idx, NoDup (arcade_ids idx tool_kits).
Proof.
  induction tool_kits as [|tool_kit rest IH]; intros idx; [constructor|].
  cbn. destruct (ToolKit.enabled tool_kit); [|apply IH].
  constructor; [|apply IH].
  intros (j & Hle & Heq)%arcade_ids_from. apply arcade_id_inj in Heq. lia.
Qed.

(** X8. In a merged list the ids of the toolkit entries are pairwise
    different, and none of them is the id of a server entry. *)
Theorem merged_tools_toolkit_ids_distinct user w merged w' :
  merged_tools user w = (Ok merged, w') ->
  exists servers kits,
    merged = map Stored (Tools.get_tools (World.db w))
             ++ map Synth servers ++ map Synth kits
    /\ length servers = length (World.TOOL_SERVERS w')
    /\ NoDup (map ToolUserResponse.id kits)
    /\ forall s k, s ∈ servers -> k ∈ kits ->
                   ToolUserResponse.id s <> ToolUserResponse.id k.
Proof.
  intros Hrun.
  apply merged_tools_ok in Hrun as (servers & kits & -> & Hsids & Hkids & _).
  exists servers, kits. split; [done|].
  split; [by rewrite <- (length_map ToolUserResponse.id servers), Hsids,
                     length_map|].
  split; [rewrite Hkids; apply arcade_ids_NoDup|].
  intros s k Hs Hk Heq.
  assert (ToolUserResponse.id s ∈ map ToolUserResponse.id servers) as Hsid
    by (apply list_elem_of_fmap; eauto).
  assert (ToolUserResponse.id k ∈ map ToolUserResponse.id kits) as Hkid
    by (apply list_elem_of_fmap; eauto).
  rewrite Hsids in Hsid. rewrite Hkids in Hkid.
  apply list_elem_of_fmap in Hsid as (server & Hsv & _).
  apply arcade_ids_from in Hkid as (j & _ & Hkv).
  rewrite Heq, Hkv in Hsv. cbn in Hsv. discriminate Hsv.
Qed.

(** ** Listing twice *)

Lemma merged_tools_frame user w r w' :
  merged_tools user w = (r, w') ->
  World.config w' = World.config w
  /\ World.ARCADE_TOOLS w' = World.ARCADE_TOOLS w.
Proof.
  rewrite merged_tools_split. intros Hrun.
  destruct (World.TOOL_SERVERS w).
  - destruct (get_tool_servers_data _) as [data|e]; [|by simplify_eq].
    apply merged_from_cache_frame in Hrun as (_ & _ & ? & ? & _). done.
  - apply merged_from_cache_frame in Hrun as (_ & _ & ? & ? & _). done.
Qed.

(** X9. Nothing about the broker is cached: a second listing for the same
    caller sends the broker the same calls once more. *)
Theorem get_tools_twice_calls_twice user w l1 w1 l2 w2 :
  get_tools user w = (Ok l1, w1) ->
  get_tools user w1 = (Ok l2, w2) ->
  let calls :=
    prescribed_calls (arcade_tool_mapper (World.ARCADE_TOOLS w))
      (UserModel.id user) (AppConfig.ARCADE_TOOLS_CONFIG (World.config w)) in
  World.broker_calls w2 = World.broker_calls w ++ calls ++ calls.
Proof.
  intros Hfirst Hsecond calls. subst calls.
  apply get_tools_kept in Hfirst as (m1 & Hm1 & _).
  apply get_tools_kept in Hsecond as (m2 & Hm2 & _).
  pose proof (merged_tools_frame _ _ _ _ Hm1) as [Hcfg Harc].
  apply merged_tools_ok in Hm1 as (? & ? & _ & _ & _ & _ & Hc1 & _).
  apply merged_tools_ok in Hm2 as (? & ? & _ & _ & _ & _ & Hc2 & _).
  rewrite Hc2, Hc1, Hcfg, Harc. by rewrite <- app_assoc.
Qed.

(** ** What the role check keeps *)

(** X10. For a caller who is not an admin, an entry is in the returned
    list exactly when it is in the merged list and is owned by the caller
    or readable by the caller according to [has_access]: nothing the
    caller may see is dropped. *)
Theorem get_tools_keeps_all_visible user w l w' :
  UserModel.role user <> "admin" ->
  get_tools user w = (Ok l, w') ->
  exists merged,
    merged_tools user w = (Ok merged, w')
    /\ forall tool,
        tool ∈ l
        <-> tool ∈ merged
            /\ (entry_user_id tool = UserModel.id user
                \/ has_access (UserModel.id user) "read"
                     (entry_access_control tool) = true).
Proof.
  intros Hrole Hrun. apply get_tools_kept in Hrun as (merged & Hmerged & ->).
  exists merged. split; [done|]. intros tool.
  unfold kept. rewrite (not_admin_true _ Hrole).
  rewrite !list_elem_of_In, List.filter_In. unfold visible_to.
  rewrite orb_true_iff, String.eqb_eq. reflexivity.
Qed.

(** ** Exceptions that reach the client *)

Lemma client_error_400 detail : client_error (HTTPException 400 detail).
Proof. exists detail. by left. Qed.

Lemma client_error_401 detail : client_error (HTTPException 401 detail).
Proof. exists detail. by right. Qed.

#[local] Hint Resolve client_error_400 client_error_401 : core.

(** Case analysis over a run given as hypothesis. *)
Ltac cases_of Hrun :=
  run; cbn in Hrun;
  repeat (case_match; simplify_eq/=);
  unfold HTTP_400_BAD_REQUEST, HTTP_401_UNAUTHORIZED in *.

(** X11. Create, update, delete and the three plain reads by id raise
    nothing but [HTTPException]s with status 400 or 401: an exception of
    the loader, of the spec derivation or of [mkdir] never reaches the
    client as it is. *)
Theorem crud_raises_client_errors_only id form_data user w e w' :
  (create_new_tools form_data user w = (Raise e, w') -> client_error e)
  /\ (update_tools_by_id id form_data user w = (Raise e, w') -> client_error e)
  /\ (delete_tools_by_id id user w = (Raise e, w') -> client_error e)
  /\ (get_tools_by_id id user w = (Raise e, w') -> client_error e)
  /\ (get_tools_valves_by_id id user w = (Raise e, w') -> client_error e)
  /\ (get_tools_user_valves_by_id id user w = (Raise e, w') -> client_error e).
Proof.
  repeat split; intros Hrun.
  - unfold create_new_tools in Hrun. cases_of Hrun; auto.
  - unfold update_tools_by_id in Hrun. cases_of Hrun; auto.
  - unfold delete_tools_by_id in Hrun. cases_of Hrun; auto.
  - unfold get_tools_by_id in Hrun. cases_of Hrun; auto.
  - unfold get_tools_valves_by_id in Hrun. cases_of Hrun; auto.
  - unfold get_tools_user_valves_by_id in Hrun. cases_of Hrun; auto.
Qed.

(** X12. The four valves handlers that need the module fetch it outside of
    any [try]: when the record is there (and, for the admin-scope update,
    the write guard is passed), the module is not cached and the loader
    raises [e], the handler raises [e] itself, not a 400, and the state is
    as it was. *)
Theorem valves_handlers_pass_loader_exception id (form_data : dict) user w t e :
  Tools.get_tool_by_id (World.db w) id = Some t ->
  World.TOOLS w !! id = None ->
  load_tools_module_by_id (World.db w) id None = Raise e ->
  get_tools_valves_spec_by_id id user w = (Raise e, w)
  /\ get_tools_user_valves_spec_by_id id user w = (Raise e, w)
  /\ update_tools_user_valves_by_id id form_data user w = (Raise e, w)
  /\ (write_denied t user = false ->
      update_tools_valves_by_id id form_data user w = (Raise e, w)).
Proof.
  intros Hrec Hcache Hload. repeat split.
  - unfold get_tools_valves_spec_by_id. run. by rewrite Hrec, Hcache, Hload.
  - unfold get_tools_user_valves_spec_by_id. run.
    by rewrite Hrec, Hcache, Hload.
  - unfold update_tools_user_valves_by_id. run.
    by rewrite Hrec, Hcache, Hload.
  - intros Hguard. unfold update_tools_valves_by_id. run.
    by rewrite Hrec, Hguard, Hcache, Hload.
Qed.

(** X13. Every id-addressed handler answers a missing record with 401 and
    the not-found message, before anything else is looked at, and leaves
    the state as it was. *)
Theorem missing_record_is_401 id form_data (payload : dict) user w :
  Tools.get_tool_by_id (World.db w) id = None ->
  let not_found {A} : result A * World.t Db :=
    (Raise (HTTPException 401 (NOT_FOUND ERROR_MESSAGES)), w) in
  get_tools_by_id id user w = not_found
  /\ update_tools_by_id id form_data user w = not_found
  /\ delete_tools_by_id id user w = not_found
  /\ get_tools_valves_by_id id user w = not_found
  /\ get_tools_valves_spec_by_id id user w = not_found
  /\ update_tools_valves_by_id id payload user w = not_found
  /\ get_tools_user_valves_by_id id user w = not_found
  /\ get_tools_user_valves_spec_by_id id user w = not_found
  /\ update_tools_user_valves_by_id id payload user w = not_found.
Proof.
  intros Hrec not_found. subst not_found.
  unfold get_tools_by_id, update_tools_by_id, delete_tools_by_id,
    get_tools_valves_by_id, get_tools_valves_spec_by_id,
    update_tools_valves_by_id, get_tools_user_valves_by_id,
    get_tools_user_valves_spec_by_id, update_tools_user_valves_by_id.
  run. rewrite Hrec. repeat split.
Qed.

(** X14. Update takes the id from the path: the id in the body of the
    request has no effect on the run. *)
Theorem update_tools_by_id_ignores_form_id id other form_data user w :
  update_tools_by_id id (ToolForm.with_id other form_data) user w
  = update_tools_by_id id form_data user w.
Proof.
  unfold update_tools_by_id. run.
  destruct (Tools.get_tool_by_id _ _) as [t|]; [|reflexivity].
  destruct (write_denied t user); reflexivity.
Qed.

(** ** Update and create past the loader *)

Lemma dict_get_set k v (d : dict) : dict_get k (dict_set k v d) = Some v.
Proof.
  induction d as [|[k' v'] rest IH]; cbn.
  - by rewrite String.eqb_refl.
  - destruct (String.eqb k' k) eqn:Hk; cbn; rewrite Hk; [reflexivity | exact IH].
Qed.

Lemma dict_get_set_ne k k' v (d : dict) :
  k <> k' -> dict_get k (dict_set k' v d) = dict_get k d.
Proof.
  intros Hne. induction d as [|[k0 v0] rest IH]; cbn.
  - apply not_eq_sym, String.eqb_neq in Hne as ->. reflexivity.
  - destruct (String.eqb k0 k') eqn:Hk'; cbn.
    + apply String.eqb_eq in Hk' as ->.
      apply not_eq_sym, String.eqb_neq in Hne as ->. reflexivity.
    + destruct (String.eqb k0 k); [reflexivity | exact IH].
Qed.

(** X15. An update whose source loads and whose specs are derived issues
    exactly one write, the update of the record under the path id, with
    the rewritten content, the derived specs and a meta whose manifest is
    the front matter found by the loader (whatever manifest the request
    carried, its other meta keys kept); the loaded module is cached under
    the id. The handler returns the record the table answers with; when
    the table answers with nothing it raises 400, the write having been
    issued. *)
Theorem update_tools_by_id_loaded id form_data user w t m frontmatter specs :
  Tools.get_tool_by_id (World.db w) id = Some t ->
  write_denied t user = false ->
  load_tools_module_by_id (World.db w) id
    (Some (replace_imports (ToolForm.content form_data)))
  = Ok (m, frontmatter) ->
  get_tools_specs m = Ok specs ->
  let updated := ToolUpdate.of_form (loaded_form frontmatter form_data) specs in
  let answer := Tools.update_tool_by_id (World.db w) id updated in
  update_tools_by_id id form_data user w
  = (answer_or_400 "Error updating tools" (fst answer),
     World.write (snd answer) (W_update_tool_by_id id updated)
       (World.set_TOOLS (<[id := m]> (World.TOOLS w)) w))
  /\ ToolUpdate.content updated = replace_imports (ToolForm.content form_data)
  /\ ToolUpdate.specs updated = specs
  /\ dict_get "manifest" (ToolUpdate.meta updated) = Some frontmatter
  /\ (forall k, k <> "manifest" ->
        dict_get k (ToolUpdate.meta updated)
        = dict_get k (ToolForm.meta form_data)).
Proof.
  intros Hrec Hguard Hload Hspecs updated answer.
  split; [|split; [reflexivity|split; [reflexivity|split]]].
  - unfold update_tools_by_id.
    unfold bind at 1, Tools_get_tool_by_id, gets. rewrite Hrec, Hguard.
    unfold try_except, bind at 1, load.
    cbn [ToolForm.with_content ToolForm.content]. rewrite Hload.
    rewrite TOOLS_set_get. unfold bind at 1, call at 1. cbn [fst snd].
    rewrite Hspecs. run. cbn.
    fold (loaded_form frontmatter form_data). fold updated. fold answer.
    destruct answer as [[t'|] d]; reflexivity.
  - apply dict_get_set.
  - intros k Hk. by apply dict_get_set_ne.
Qed.

(** X16. A create whose source loads and whose specs are derived issues
    the insert, under the caller's id and the lowercased id, and caches the
    module, whatever happens next. If [mkdir] then raises, or the table
    has answered with nothing, the handler raises 400 all the same. *)
Theorem create_new_tools_loaded form_data user w m frontmatter specs :
  create_denied user (AppConfig.USER_PERMISSIONS (World.config w)) = false ->
  PyStr.isidentifier (ToolForm.id form_data) = true ->
  let id := PyStr.lower (ToolForm.id form_data) in
  Tools.get_tool_by_id (World.db w) id = None ->
  load_tools_module_by_id (World.db w) id
    (Some (replace_imports (ToolForm.content form_data)))
  = Ok (m, frontmatter) ->
  get_tools_specs m = Ok specs ->
  let inserted := loaded_form frontmatter (ToolForm.with_id id form_data) in
  let answer :=
    Tools.insert_new_tool (World.db w) (UserModel.id user) inserted specs in
  create_new_tools form_data user w
  = (match mkdir id with
     | Ok _ => answer_or_400 "Error creating tools" (fst answer)
     | Raise e =>
         Raise (HTTPException 400 (DEFAULT ERROR_MESSAGES (str e)))
     end,
     World.write (snd answer)
       (W_insert_new_tool (UserModel.id user) inserted specs)
       (World.set_TOOLS (<[id := m]> (World.TOOLS w)) w))
  /\ ToolForm.id inserted = id
  /\ dict_get "manifest" (ToolForm.meta inserted) = Some frontmatter.
Proof.
  intros Hperm Hid id Hrec Hload Hspecs inserted answer.
  split; [|split; [reflexivity | apply dict_get_set]].
  unfold create_new_tools.
  unfold bind at 1, gets at 1. rewrite Hperm, Hid.
  unfold negb, bind at 1, Tools_get_tool_by_id, gets.
  cbn [ToolForm.id ToolForm.with_id]. fold id. rewrite Hrec.
  unfold try_except, bind at 1, load.
  cbn [ToolForm.id ToolForm.with_id ToolForm.with_content ToolForm.content
       ToolForm.with_manifest].
  rewrite Hload, TOOLS_set_get.
  unfold bind at 1, call at 1. cbn [fst snd]. rewrite Hspecs.
  run. cbn. change (Tools.insert_new_tool _ _ _ _) with answer.
  destruct answer as [[t'|] d]; destruct (mkdir id); reflexivity.
Qed.

(** X17. In an update that passes the guards, a failure of the loader
    leaves the cache of loaded modules as it was, while a failure of the
    spec derivation comes after the assignment to the cache: the new
    module is cached under the id although the record is unchanged. *)
Theorem update_tools_by_id_failure_and_cache id form_data user w t e :
  Tools.get_tool_by_id (World.db w) id = Some t ->
  write_denied t user = false ->
  (load_tools_module_by_id (World.db w) id
     (Some (replace_imports (ToolForm.content form_data))) = Raise e ->
   snd (update_tools_by_id id form_data user w) = w)
  /\ (forall m frontmatter,
        load_tools_module_by_id (World.db w) id
          (Some (replace_imports (ToolForm.content form_data)))
        = Ok (m, frontmatter) ->
        get_tools_specs m = Raise e ->
        World.TOOLS (snd (update_tools_by_id id form_data user w)) !! id
        = Some m
        /\ World.db (snd (update_tools_by_id id form_data user w))
           = World.db w).
Proof.
  intros Hrec Hguard. split.
  - intros Hload. unfold update_tools_by_id.
    unfold bind at 1, Tools_get_tool_by_id, gets. rewrite Hrec, Hguard.
    unfold try_except, bind at 1, load.
    cbn [ToolForm.with_content ToolForm.content]. by rewrite Hload.
  - intros m fm Hload Hspecs.
    assert (update_tools_by_id id form_data user w
            = (Raise (HTTPException 400 (DEFAULT ERROR_MESSAGES (str e))),
               World.set_TOOLS (<[id := m]> (World.TOOLS w)) w)) as ->.
    { unfold update_tools_by_id.
      unfold bind at 1, Tools_get_tool_by_id, gets. rewrite Hrec, Hguard.
      unfold try_except, bind at 1, load.
      cbn [ToolForm.with_content ToolForm.content]. rewrite Hload.
      rewrite TOOLS_set_get. unfold bind at 1, call at 1. cbn [fst snd].
      by rewrite Hspecs. }
    cbn. split; [apply lookup_insert_eq | reflexivity].
Qed.

(** ** The id a create stores *)

Lemma lower_char_idempotent c :
  PyStr.lower_char (PyStr.lower_char c) = PyStr.lower_char c.
Proof. destruct c as [[] [] [] [] [] [] [] []]; reflexivity. Qed.

Lemma lower_char_xid_start c :
  PyStr.is_xid_start (PyStr.lower_char c) = PyStr.is_xid_start c.
Proof. destruct c as [[] [] [] [] [] [] [] []]; reflexivity. Qed.

Lemma lower_char_xid_continue c :
  PyStr.is_xid_continue (PyStr.lower_char c) = PyStr.is_xid_continue c.
Proof. destruct c as [[] [] [] [] [] [] [] []]; reflexivity. Qed.

Lemma lower_idempotent s : PyStr.lower (PyStr.lower s) = PyStr.lower s.
Proof.
  induction s as [|c s IH]; [reflexivity|].
  cbn. by rewrite lower_char_idempotent, IH.
Qed.

Lemma lower_all_xid_continue s :
  PyStr.all_chars PyStr.is_xid_continue (PyStr.lower s)
  = PyStr.all_chars PyStr.is_xid_continue s.
Proof.
  induction s as [|c s IH]; [reflexivity|].
  cbn [PyStr.lower PyStr.all_chars]. by rewrite lower_char_xid_continue, IH.
Qed.

Lemma lower_isidentifier s :
  PyStr.isidentifier (PyStr.lower s) = PyStr.isidentifier s.
Proof.
  destruct s as [|c s]; [reflexivity|].
  cbn [PyStr.lower PyStr.isidentifier].
  by rewrite lower_char_xid_start, lower_all_xid_continue.
Qed.

(** The writes of a create: none, or one insert of a form with the
    lowercased id of an identifier. *)
Lemma create_new_tools_writes form_data user w r w' :
  create_new_tools form_data user w = (r, w') ->
  World.db_writes w' = World.db_writes w
  \/ exists f specs,
      PyStr.isidentifier (ToolForm.id form_data) = true
      /\ ToolForm.id f = PyStr.lower (ToolForm.id form_data)
      /\ World.db_writes w'
         = World.db_writes w
           ++ [W_insert_new_tool (UserModel.id user) f specs].
Proof.
  intros Hrun. unfold create_new_tools in Hrun.
  unfold bind at 1, gets at 1 in Hrun.
  destruct (create_denied _ _); [run; left; by simplify_eq|].
  destruct (PyStr.isidentifier (ToolForm.id form_data)) eqn:Hid;
    [| run; cbn in Hrun; left; by simplify_eq].
  unfold negb, bind at 1, Tools_get_tool_by_id, gets in Hrun.
  cbn [ToolForm.id ToolForm.with_id] in Hrun.
  destruct (Tools.get_tool_by_id _ _);
    [run; cbn in Hrun; left; by simplify_eq |].
  unfold try_except, bind at 1, load in Hrun.
  cbn [ToolForm.id ToolForm.with_id ToolForm.with_content ToolForm.content
       ToolForm.with_manifest] in Hrun.
  destruct (load_tools_module_by_id _ _ _) as [[m fm]|e];
    [| run; cbn in Hrun; left; by simplify_eq].
  rewrite TOOLS_set_get in Hrun.
  unfold bind at 1, call at 1 in Hrun. cbn [fst snd] in Hrun.
  destruct (get_tools_specs m) as [specs|e];
    [| run; cbn in Hrun; left; by simplify_eq].
  right. eexists _, specs. run. cbn in Hrun.
  destruct (Tools.insert_new_tool _ _ _ _) as [t d] eqn:Hins.
  cbn in Hrun. split; [done|]. split.
  2: { destruct (mkdir _); [destruct t|]; simplify_eq; cbn; reflexivity. }
  reflexivity.
Qed.

(** X18. Whatever the request, the form a create inserts is inserted for
    the caller and carries an id that is an identifier and is its own
    lowercase form: ids that differ only in case cannot both be created
    through this handler. *)
Theorem create_new_tools_inserts_lowercase_identifier
  form_data user w r w' user_id f specs :
  create_new_tools form_data user w = (r, w') ->
  W_insert_new_tool user_id f specs ∈ World.db_writes w' ->
  W_insert_new_tool user_id f specs ∈ World.db_writes w
  \/ (user_id = UserModel.id user
      /\ PyStr.isidentifier (ToolForm.id f) = true
      /\ PyStr.lower (ToolForm.id f) = ToolForm.id f).
Proof.
  intros Hrun Hin.
  apply create_new_tools_writes in Hrun
    as [Hsame | (f' & sp & Hid & Hf & Hlog)].
  - left. by rewrite <- Hsame.
  - rewrite Hlog in Hin. apply elem_of_app in Hin as [Hold|Hnew]; [by left|].
    right. apply list_elem_of_singleton in Hnew. injection Hnew as -> -> ->.
    rewrite Hf. split; [done|]. split.
    + by rewrite lower_isidentifier.
    + apply lower_idempotent.
Qed.

(** ** Valves: the module cache and the write *)

Lemma cached_or_loaded_hit id w m w1 :
  cached_or_loaded id w = (Ok m, w1) ->
  World.TOOLS w1 !! id = Some m /\ World.db w1 = World.db w.
Proof.
  unfold cached_or_loaded. run. intros Hrun.
  destruct (World.TOOLS w !! id) eqn:Hcache; [by simplify_eq|].
  destruct (load_tools_module_by_id _ _ _) as [[m' fm]|e]; simplify_eq.
  cbn. split; [apply lookup_insert_eq | reflexivity].
Qed.

Lemma cached_or_loaded_cached id w m :
  World.TOOLS w !! id = Some m -> cached_or_loaded id w = (Ok m, w).
Proof. intros Hcache. unfold cached_or_loaded. run. by rewrite Hcache. Qed.

(** X19. The module of a tool is loaded at most once for the schema
    handlers: after a schema request that returned, the same request on
    the state it left returns the same answer and changes nothing
    whatever the collaborators are then, also with a loader that raises
    on every call. The module is taken from the cache; the loader is not
    asked again. *)
Theorem valves_spec_second_request id user w :
  (forall r w1,
      get_tools_valves_spec_by_id id user w = (Ok r, w1) ->
      forall other : Collaborators Db,
        get_tools_valves_spec_by_id (Collaborators0 := other) id user w1
        = (Ok r, w1))
  /\ (forall r w1,
        get_tools_user_valves_spec_by_id id user w = (Ok r, w1) ->
        forall other : Collaborators Db,
          get_tools_user_valves_spec_by_id (Collaborators0 := other) id user
            w1
          = (Ok r, w1)).
Proof.
  split; intros r w1 Hrun other.
  - unfold get_tools_valves_spec_by_id in *.
    unfold bind at 1, Tools_get_tool_by_id, gets in Hrun.
    unfold bind at 1, Tools_get_tool_by_id, gets.
    destruct (Tools.get_tool_by_id (World.db w) id) as [t|] eqn:Hrec;
      [|discriminate].
    unfold bind at 1 in Hrun.
    destruct (cached_or_loaded id w) as [[m|e] w2] eqn:Hmod; [|discriminate].
    assert (w2 = w1) as ->
      by (unfold ret in Hrun; destruct (PyModule.Valves m); by simplify_eq).
    apply cached_or_loaded_hit in Hmod as [Hcache Hdb].
    rewrite Hdb, Hrec. unfold bind at 1, cached_or_loaded.
    unfold bind at 1, gets at 1. rewrite Hcache. unfold ret at 1.
    unfold ret in *. by destruct (PyModule.Valves m).
  - unfold get_tools_user_valves_spec_by_id in *.
    unfold bind at 1, Tools_get_tool_by_id, gets in Hrun.
    unfold bind at 1, Tools_get_tool_by_id, gets.
    destruct (Tools.get_tool_by_id (World.db w) id) as [t|] eqn:Hrec;
      [|discriminate].
    unfold bind at 1 in Hrun.
    destruct (cached_or_loaded id w) as [[m|e] w2] eqn:Hmod; [|discriminate].
    assert (w2 = w1) as ->
      by (unfold ret in Hrun; destruct (PyModule.UserValves m);
          by simplify_eq).
    apply cached_or_loaded_hit in Hmod as [Hcache Hdb].
    rewrite Hdb, Hrec. unfold bind at 1, cached_or_loaded.
    unfold bind at 1, gets at 1. rewrite Hcache. unfold ret at 1.
    unfold ret in *. by destruct (PyModule.UserValves m).
Qed.

(** X20. A valves update whose payload the class accepts issues exactly
    one write, of the dump of the validated instance (under the caller's
    id for the per-user valves), and returns that dump; what the table
    answers to the write is not looked at. *)
Theorem valves_update_accepted id (form_data : dict) user w t m w1 valves :
  Tools.get_tool_by_id (World.db w) id = Some t ->
  cached_or_loaded id w = (Ok m, w1) ->
  let dump := BaseModel.model_dump valves in
  (forall Valves,
      write_denied t user = false ->
      PyModule.Valves m = Some Valves ->
      ValvesClass.init Valves (drop_none form_data) = Ok valves ->
      update_tools_valves_by_id id form_data user w
      = (Ok dump,
         World.write
           (snd (Tools.update_tool_valves_by_id (World.db w1) id dump))
           (W_update_tool_valves_by_id id dump) w1))
  /\ (forall UserValves,
        PyModule.UserValves m = Some UserValves ->
        ValvesClass.init UserValves (drop_none form_data) = Ok valves ->
        update_tools_user_valves_by_id id form_data user w
        = (Ok dump,
           World.write
             (snd (Tools.update_user_valves_by_id_and_user_id (World.db w1)
                     id (UserModel.id user) dump))
             (W_update_user_valves_by_id_and_user_id id (UserModel.id user)
                dump) w1)).
Proof.
  intros Hrec Hmod dump. split.
  - intros V Hguard HV Hinit. unfold update_tools_valves_by_id.
    unfold bind at 1, Tools_get_tool_by_id, gets. rewrite Hrec, Hguard.
    unfold bind at 1. rewrite Hmod, HV.
    unfold try_except, bind at 1, call at 1. rewrite Hinit. run.
    fold dump. by destruct (Tools.update_tool_valves_by_id _ _ _).
  - intros V HV Hinit. unfold update_tools_user_valves_by_id.
    unfold bind at 1, Tools_get_tool_by_id, gets. rewrite Hrec.
    unfold bind at 1. rewrite Hmod, HV.
    unfold try_except, bind at 1, call at 1. rewrite Hinit. run.
    fold dump. by destruct (Tools.update_user_valves_by_id_and_user_id _ _ _ _).
Qed.

(** ** A broker that raises *)

(** X21. The listing does not catch what the broker raises: when the call
    for an enabled toolkit raises [e], the loop over the toolkits raises
    [e], the entries built so far are lost, and the call stands in the
    broker's log. *)
Theorem append_tool_kits_broker_raises
  mapper user idx tool_kit rest tools w requirement e :
  ToolKit.enabled tool_kit = true ->
  (forall tool, tool ∈ ToolKit.tools tool_kit ->
                is_Some (mapper !! ToolKit.name tool)) ->
  prescribed_requirement mapper tool_kit = Some requirement ->
  authorize (World.broker_calls w) requirement (UserModel.id user) = Raise e ->
  append_tool_kits mapper user idx (tool_kit :: rest) tools w
  = (Raise e, World.called (requirement, UserModel.id user) w).
Proof.
  intros Hon Hknown Hreq Hraise.
  assert (exists v, scan_tools mapper (ToolKit.tools tool_kit) auth_vars_init
                    = Ok v) as [v Hscan].
  { generalize auth_vars_init.
    induction (ToolKit.tools tool_kit) as [|tool members IH]; intros v0.
    - by exists v0.
    - cbn [scan_tools].
      destruct (Hknown tool) as [arcade_tool Hin]; [by left|].
      destruct (scan_tool_known mapper tool v0 arcade_tool Hin) as [v1 ->].
      apply IH. intros tool' Hin'. apply Hknown. by right. }
  cbn [append_tool_kits]. rewrite Hon.
  unfold bind at 1, tool_kit_response, bind at 1, call at 1. rewrite Hscan.
  rewrite (auth_requirement_of_prescribed _ _ _ Hscan), Hreq.
  unfold bind at 1, client_auth_authorize. by rewrite Hraise.
Qed.

End RouterMore.

(** * The further properties at work on the reference instance *)

(** X1 at work. *)
Lemma get_tools_never_writes_witness :
  exists r w',
    get_tools Demo.u3 Demo.busy_world = (r, w')
    /\ World.db w' = World.db Demo.busy_world
    /\ World.db_writes w' = [].
Proof.
  eexists _, _. split; [vm_compute; reflexivity|].
  edestruct (get_tools_never_writes Demo.u3 Demo.busy_world)
    as (Hdb & Hlog & _); [vm_compute; reflexivity|].
  split; [exact Hdb | exact Hlog].
Defined.

(** X2 at work: the empty cache of the busy state receives the one server
    the registry reports. *)
Lemma get_tools_server_cache_witness :
  exists r w',
    get_tools Demo.u3 Demo.busy_world = (r, w')
    /\ World.TOOL_SERVERS w'
       = [ {| ToolServer.idx := 0; ToolServer.info := None |} ].
Proof.
  eexists _, _. split; [vm_compute; reflexivity|].
  edestruct (get_tools_server_cache Demo.u3 Demo.busy_world)
    as (Hcache & _); [vm_compute; reflexivity|].
  rewrite Hcache. reflexivity.
Defined.

(** X3 at work: two cached servers, one connection. *)
Lemma get_tools_more_servers_than_connections_witness :
  fst (get_tools Demo.root Cases.stale_world)
  = Raise (Exception "IndexError: list index out of range").
Proof.
  apply (get_tools_more_servers_than_connections Demo.root Cases.stale_world).
  cbn. lia.
Defined.

(** X4 at work: ["Mail.Send"] is among the broker's tools, ["Ghost.Tool"]
    is not. *)
Lemma append_tool_kits_unknown_member_witness :
  append_tool_kits (arcade_tool_mapper Demo.arcade_tools) Demo.u1 0
    [Cases.ghost_kit] [] Demo.busy_world
  = (Raise (Exception "KeyError: Ghost.Tool"), Demo.busy_world).
Proof.
  apply (append_tool_kits_unknown_member
           (arcade_tool_mapper Demo.arcade_tools) Demo.u1 0%nat Cases.ghost_kit
           [] [] Demo.busy_world [ {| ToolKit.name := "Mail.Send" |} ]
           {| ToolKit.name := "Ghost.Tool" |} []).
  - reflexivity.
  - reflexivity.
  - constructor; [|constructor].
    eexists. vm_compute. reflexivity.
  - vm_compute. reflexivity.
Defined.

(** X6 at work: the entry of the first cached server. *)
Lemma merged_tools_server_entry_witness :
  exists merged w' r connection,
    merged_tools Demo.root Demo.busy_world = (Ok merged, w')
    /\ merged !! 2%nat = Some (Synth r)
    /\ AppConfig.TOOL_SERVER_CONNECTIONS Demo.busy_config !! 0%nat
       = Some connection
    /\ ToolUserResponse.id r = "server:0"
    /\ ToolUserResponse.access_control r
       = connection_access_control connection.
Proof.
  eexists _, _.
  edestruct (merged_tools_server_entry Demo.root Demo.busy_world)
    with (k := 0%nat)
         (server := {| ToolServer.idx := 0; ToolServer.info := None |})
    as (r & connection & Hat & Hconn & Hid & _ & Hac);
    [vm_compute; reflexivity | vm_compute; reflexivity |].
  exists r, connection. split; [vm_compute; reflexivity|].
  split; [exact Hat|]. split; [exact Hconn|]. split; [exact Hid | exact Hac].
Defined.

(** X7 at work: two records, one server, one enabled toolkit. *)
Lemma get_tools_admin_count_witness :
  exists l w',
    get_tools Demo.root Demo.busy_world = (Ok l, w') /\ length l = 4%nat.
Proof.
  eexists _, _. split; [vm_compute; reflexivity|].
  erewrite (get_tools_admin_count Demo.root Demo.busy_world);
    [| reflexivity | vm_compute; reflexivity].
  vm_compute. reflexivity.
Defined.

(** X8 at work. *)
Lemma merged_tools_toolkit_ids_distinct_witness :
  exists merged w' servers kits,
    merged_tools Demo.root Demo.busy_world = (Ok merged, w')
    /\ merged = map Stored (Tools.get_tools (World.db Demo.busy_world))
                ++ map Synth servers ++ map Synth kits
    /\ NoDup (map ToolUserResponse.id kits).
Proof.
  eexists _, _.
  edestruct (merged_tools_toolkit_ids_distinct Demo.root Demo.busy_world)
    as (servers & kits & Hmerged & _ & Hnodup & _); [vm_compute; reflexivity|].
  exists servers, kits. split; [vm_compute; reflexivity|].
  split; [exact Hmerged | exact Hnodup].
Defined.

(** X9 at work: two listings, two calls. *)
Lemma get_tools_twice_calls_twice_witness :
  exists l1 w1 l2 w2,
    get_tools Demo.root Demo.busy_world = (Ok l1, w1)
    /\ get_tools Demo.root w1 = (Ok l2, w2)
    /\ World.broker_calls w2
       = [(Cases.mail_requirement, "root"); (Cases.mail_requirement, "root")].
Proof.
  eexists _, _, _, _.
  split; [vm_compute; reflexivity|]. split; [vm_compute; reflexivity|].
  erewrite (get_tools_twice_calls_twice Demo.root Demo.busy_world);
    [| vm_compute; reflexivity | vm_compute; reflexivity].
  vm_compute. reflexivity.
Defined.

(** X10 at work: [u3] keeps ["calc"] and loses ["notes"]. *)
Lemma get_tools_keeps_all_visible_witness :
  exists l w',
    get_tools Demo.u3 Demo.busy_world = (Ok l, w')
    /\ Stored Demo.calc ∈ l.
Proof.
  eexists _, _. split; [vm_compute; reflexivity|].
  edestruct (get_tools_keeps_all_visible Demo.u3 Demo.busy_world)
    as (merged & Hmerged & Hiff);
    [discriminate | vm_compute; reflexivity |].
  apply Hiff. split.
  - assert (merged_tools Demo.u3 Demo.busy_world = (Ok _, _)) as Hrun
      by (vm_compute; reflexivity).
    rewrite Hrun in Hmerged. injection Hmerged as <-.
    apply list_elem_of_here.
  - right. reflexivity.
Defined.

(** X11 at work: the loader's exception for empty source text reaches the
    client as a 400. *)
Lemma crud_raises_client_errors_only_witness :
  exists e w',
    create_new_tools (Demo.form "Calc" "") Demo.root (Demo.world_of [])
    = (Raise e, w')
    /\ client_error e.
Proof.
  eexists _, _. split; [vm_compute; reflexivity|].
  eapply (proj1 (crud_raises_client_errors_only "calc" (Demo.form "Calc" "")
                   Demo.root (Demo.world_of []) _ _)).
  vm_compute. reflexivity.
Defined.

(** X12 at work: the stored source of ["blank"] is empty. *)
Lemma valves_handlers_pass_loader_exception_witness :
  get_tools_valves_spec_by_id "blank" Demo.u1 (Demo.world_of [Cases.blank])
  = (Raise (Exception "No Tools class found"), Demo.world_of [Cases.blank])
  /\ update_tools_valves_by_id "blank" [("key", JStr "k")] Demo.u1
       (Demo.world_of [Cases.blank])
     = (Raise (Exception "No Tools class found"), Demo.world_of [Cases.blank]).
Proof.
  destruct (valves_handlers_pass_loader_exception "blank" [("key", JStr "k")]
              Demo.u1 (Demo.world_of [Cases.blank]) Cases.blank
              (Exception "No Tools class found"))
    as (Hspec & _ & _ & Hupdate);
    [vm_compute; reflexivity | vm_compute; reflexivity
     | vm_compute; reflexivity |].
  split; [exact Hspec | apply Hupdate; reflexivity].
Defined.

(** X13 at work: nobody has stored ["ghost"]. *)
Lemma missing_record_is_401_witness :
  get_tools_by_id "ghost" Demo.root (Demo.world_of [Demo.calc])
  = (Raise (HTTPException 401 (NOT_FOUND ERROR_MESSAGES)),
     Demo.world_of [Demo.calc])
  /\ update_tools_user_valves_by_id "ghost" [] Demo.root
       (Demo.world_of [Demo.calc])
     = (Raise (HTTPException 401 (NOT_FOUND ERROR_MESSAGES)),
        Demo.world_of [Demo.calc]).
Proof.
  destruct (missing_record_is_401 "ghost" (Demo.form "ghost" "") []
              Demo.root (Demo.world_of [Demo.calc]))
    as (Hget & _ & _ & _ & _ & _ & _ & _ & Huser);
    [vm_compute; reflexivity|].
  split; [exact Hget | exact Huser].
Defined.

(** X15 at work: the owner updates ["calc"]. *)
Lemma update_tools_by_id_loaded_witness :
  World.db_writes
    (snd (update_tools_by_id "calc" (Demo.form "other" "class Tools: ...")
            Demo.u1 (Demo.world_of [Demo.calc])))
  = [W_update_tool_by_id "calc"
       (ToolUpdate.of_form
          (loaded_form (JDict []) (Demo.form "other" "class Tools: ..."))
          [])].
Proof.
  destruct (update_tools_by_id_loaded "calc"
              (Demo.form "other" "class Tools: ...") Demo.u1
              (Demo.world_of [Demo.calc]) Demo.calc Demo.tools_module
              (JDict []) [])
    as (Hrun & _);
    [vm_compute; reflexivity | reflexivity | reflexivity | reflexivity |].
  rewrite Hrun. reflexivity.
Defined.

(** X16 at work: a create on a full disk raises 400 and has inserted. *)
Lemma create_new_tools_loaded_witness :
  let run :=
    create_new_tools (Collaborators0 := Cases.no_disk)
      (Demo.form "Calc" "class Tools: pass") Demo.root (Demo.world_of []) in
  fst run = Raise (HTTPException 400 "[ERROR: No space left on device]")
  /\ (ToolModel.id <$> Demo.rows (World.db (snd run)) !! "calc") = Some "calc".
Proof.
  intros run.
  destruct (create_new_tools_loaded (Collaborators0 := Cases.no_disk)
              (Demo.form "Calc" "class Tools: pass") Demo.root
              (Demo.world_of []) Demo.tools_module (JDict []) [])
    as (Hrun & _);
    [reflexivity | reflexivity | vm_compute; reflexivity | reflexivity
     | reflexivity |].
  subst run. rewrite Hrun. split; vm_compute; reflexivity.
Defined.

(** X17 at work: a loader failure, and a failure of the spec derivation. *)
Lemma update_tools_by_id_failure_and_cache_witness :
  snd (update_tools_by_id "calc" (Demo.form "calc" "") Demo.u1
         (Demo.world_of [Demo.calc]))
  = Demo.world_of [Demo.calc]
  /\ World.TOOLS
       (snd (update_tools_by_id (Collaborators0 := Cases.no_specs) "calc"
               (Demo.form "calc" "class Tools: pass") Demo.u1
               (Demo.world_of [Demo.calc]))) !! "calc"
     = Some Demo.tools_module.
Proof.
  split.
  - destruct (update_tools_by_id_failure_and_cache "calc"
                (Demo.form "calc" "") Demo.u1 (Demo.world_of [Demo.calc])
                Demo.calc (Exception "No Tools class found"))
      as [Hload _]; [vm_compute; reflexivity | reflexivity |].
    apply Hload. reflexivity.
  - destruct (update_tools_by_id_failure_and_cache
                (Collaborators0 := Cases.no_specs) "calc"
                (Demo.form "calc" "class Tools: pass") Demo.u1
                (Demo.world_of [Demo.calc]) Demo.calc
                (Exception "no callable found"))
      as [_ Hspecs]; [vm_compute; reflexivity | reflexivity |].
    apply (Hspecs Demo.tools_module (JDict [])); reflexivity.
Defined.

(** X18 at work: what a create of ["Calc"] inserts. *)
Lemma create_new_tools_inserts_lowercase_identifier_witness :
  exists r w' f,
    create_new_tools (Demo.form "Calc" "class Tools: pass") Demo.root
      (Demo.world_of []) = (r, w')
    /\ World.db_writes w' = [W_insert_new_tool "root" f []]
    /\ PyStr.isidentifier (ToolForm.id f) = true
    /\ PyStr.lower (ToolForm.id f) = ToolForm.id f.
Proof.
  eexists _, _, _. split; [vm_compute; reflexivity|].
  split; [reflexivity|].
  edestruct (create_new_tools_inserts_lowercase_identifier
               (Demo.form "Calc" "class Tools: pass") Demo.root
               (Demo.world_of []))
    as [Hold | (_ & Hid & Hlow)];
    [vm_compute; reflexivity | apply list_elem_of_here | |].
  - apply elem_of_nil in Hold. destruct Hold.
  - split; [exact Hid | exact Hlow].
Defined.

(** X19 at work: the schema of ["calc"], asked for a second time when the
    loader has stopped working. *)
Lemma valves_spec_second_request_witness :
  exists r w1,
    get_tools_valves_spec_by_id "calc" Demo.u3 (Demo.world_of [Demo.calc])
    = (Ok r, w1)
    /\ get_tools_valves_spec_by_id (Collaborators0 := Cases.no_loader) "calc"
         Demo.u3 w1 = (Ok r, w1)
    /\ exists e,
        get_tools_valves_spec_by_id (Collaborators0 := Cases.no_loader) "calc"
          Demo.u3 (Demo.world_of [Demo.calc])
        = (Raise e, Demo.world_of [Demo.calc]).
Proof.
  eexists _, _. split; [vm_compute; reflexivity|]. split.
  - apply (proj1 (valves_spec_second_request "calc" Demo.u3
                    (Demo.world_of [Demo.calc]))).
    vm_compute. reflexivity.
  - eexists. vm_compute. reflexivity.
Defined.

(** X20 at work: the owner sets the valves of ["calc"]. *)
Lemma valves_update_accepted_witness :
  exists w',
    update_tools_valves_by_id "calc" [("key", JStr "k"); ("spare", JNone)]
      Demo.u1 (Demo.world_of [Demo.calc])
    = (Ok [("key", JStr "k")], w')
    /\ World.db_writes w'
       = [W_update_tool_valves_by_id "calc" [("key", JStr "k")]].
Proof.
  eexists. 
  destruct (valves_update_accepted "calc" [("key", JStr "k"); ("spare", JNone)]
              Demo.u1 (Demo.world_of [Demo.calc]) Demo.calc Demo.tools_module
              (World.set_TOOLS {["calc" := Demo.tools_module]}
                 (Demo.world_of [Demo.calc]))
              {| BaseModel.model_dump := [("key", JStr "k")] |})
    as (Hadmin & _);
    [vm_compute; reflexivity | vm_compute; reflexivity |].
  split.
  - apply (Hadmin Demo.KeyValves); reflexivity.
  - reflexivity.
Defined.

(** X21 at work: a broker that cannot be reached. *)
Lemma append_tool_kits_broker_raises_witness :
  append_tool_kits (Collaborators0 := Cases.no_broker)
    (arcade_tool_mapper Demo.arcade_tools) Demo.root 1 [Demo.mail_kit]
    [Stored Demo.calc] Demo.busy_world
  = (Raise (Exception "Connection error."),
     World.called (Cases.mail_requirement, "root") Demo.busy_world).
Proof.
  apply (append_tool_kits_broker_raises (Collaborators0 := Cases.no_broker)
           (arcade_tool_mapper Demo.arcade_tools) Demo.root 1%nat
           Demo.mail_kit [] [Stored Demo.calc] Demo.busy_world
           Cases.mail_requirement (Exception "Connection error.")).
  - reflexivity.
  - intros tool Hin. cbn in Hin.
    repeat (apply elem_of_cons in Hin as [-> | Hin];
            [eexists; vm_compute; reflexivity|]).
    by apply elem_of_nil in Hin.
  - vm_compute. reflexivity.
  - reflexivity.
Defined.
